(** * nRF51Gap: the GAP control layer of the nRF51822 BLE port

    A shallow embedding of [nRF51Gap.cpp] (samples/BLEHeartRate/BLE_nRF51822)
    and the properties of its advertising, connection and identity
    operations.

    The methods of [nRF51Gap] read and write the object's [state] and
    [m_connectionHandle] members and call the SoftDevice ([sd_ble_gap_*]).
    They are embedded in a small state monad with early [return]; the
    SoftDevice is an oracle that answers every call with a status word, and
    every call is recorded in a trace. *)

From Stdlib Require Import NArith ZArith List Bool Lia.
From Stdlib Require Import Strings.Byte.
Import ListNotations.

Local Open Scope N_scope.

(** ** Types of the BLE API *)

(** [ble_error_t], restricted to the enumerators this file returns. *)
Inductive ble_error_t : Type :=
| BLE_ERROR_NONE
| BLE_ERROR_BUFFER_OVERFLOW
| BLE_ERROR_NOT_IMPLEMENTED
| BLE_ERROR_PARAM_OUT_OF_RANGE.

Module GapAdvertisingParams.

(** [GapAdvertisingParams::AdvertisingType]. *)
Inductive AdvertisingType : Type :=
| ADV_CONNECTABLE_UNDIRECTED
| ADV_CONNECTABLE_DIRECTED
| ADV_SCANNABLE_UNDIRECTED
| ADV_NON_CONNECTABLE_UNDIRECTED.

Definition eqb (a b : AdvertisingType) : bool :=
  match a, b with
  | ADV_CONNECTABLE_UNDIRECTED, ADV_CONNECTABLE_UNDIRECTED => true
  | ADV_CONNECTABLE_DIRECTED, ADV_CONNECTABLE_DIRECTED => true
  | ADV_SCANNABLE_UNDIRECTED, ADV_SCANNABLE_UNDIRECTED => true
  | ADV_NON_CONNECTABLE_UNDIRECTED, ADV_NON_CONNECTABLE_UNDIRECTED => true
  | _, _ => false
  end.

(** Modelled from the spec: the class [GapAdvertisingParams] is declared in
    a header outside [nRF51Gap.cpp]; it carries an
    advertising type, an interval in units of 0.625 ms and a timeout in
    seconds, read through the three getters the methods call. *)
Record t : Type := {
  getAdvertisingType : AdvertisingType;
  getInterval : N;
  getTimeout : N
}.

End GapAdvertisingParams.

Module GapAdvertisingData.

(** Modelled from the spec: the class [GapAdvertisingData] is declared in a
    header outside [nRF51Gap.cpp]; it is a byte
    sequence together with the 16-bit appearance code embedded within
    it. *)
Record t : Type := {
  getPayload : list byte;
  getAppearance : N
}.

Definition getPayloadLen (d : t) : N := N.of_nat (length (getPayload d)).

End GapAdvertisingData.

Import GapAdvertisingParams (AdvertisingType(..)).

Infix "==" := GapAdvertisingParams.eqb (at level 70, no associativity).

(** Modelled from the spec: the advertising PDU limit
    [GAP_ADVERTISING_DATA_MAX_PAYLOAD] is 31 bytes. *)
Definition GAP_ADVERTISING_DATA_MAX_PAYLOAD : N := 31.

(** Modelled from the spec: a device address is a fixed 6-byte sequence. *)
Definition ADDR_LEN : nat := 6.

(** Modelled from the spec: [addr_type_t] is declared in [Gap.h], outside
    [nRF51Gap.cpp]; it has four enumerators, numbered from zero in the order
    in which they are listed.  It is an unscoped enumeration, whose values
    are compared after promotion to [int]: a value of the type is a signed
    integer, and a caller can pass one that is none of the enumerators. *)
Definition addr_type_t : Type := Z.
Definition ADDR_TYPE_PUBLIC : addr_type_t := 0%Z.
Definition ADDR_TYPE_RANDOM_STATIC : addr_type_t := 1%Z.
Definition ADDR_TYPE_RANDOM_PRIVATE_RESOLVABLE : addr_type_t := 2%Z.
Definition ADDR_TYPE_RANDOM_PRIVATE_NON_RESOLVABLE : addr_type_t := 3%Z.

(** Modelled from the spec: [DisconnectionReason_t] is declared in [Gap.h],
    outside [nRF51Gap.cpp]; two enumerators are named
    and the rest is left open, which is the third constructor here (any other
    value of the enumeration, given by its number). *)
Inductive DisconnectionReason_t : Type :=
| REMOTE_USER_TERMINATED_CONNECTION
| CONN_INTERVAL_UNACCEPTABLE
| UNMAPPED_REASON (raw : N).

(** [GapState_t]: two one-bit fields. *)
Record GapState_t : Type := {
  advertising : bool;
  connected : bool
}.

(** The data members of an [nRF51Gap] object. *)
Record nRF51Gap : Type := {
  state : GapState_t;
  m_connectionHandle : N
}.

(** ** Constants of the SDK headers

    The numeric constants come from headers ([nrf_error.h], [ble_gap.h],
    [ble_hci.h], [GapAdvertisingParams.h], [common/common.h]) outside
    [nRF51Gap.cpp]: the methods are parametric in them. *)
Class Headers : Type := {
  ERROR_NONE : N;
  NRF_SUCCESS : N;
  GAP_ADV_PARAMS_INTERVAL_MIN : N;
  GAP_ADV_PARAMS_INTERVAL_MIN_NONCON : N;
  GAP_ADV_PARAMS_INTERVAL_MAX : N;
  GAP_ADV_PARAMS_TIMEOUT_MAX : N;
  BLE_GAP_ADV_FP_ANY : N;
  BLE_GAP_ADDR_CYCLE_MODE_NONE : N;
  BLE_HCI_REMOTE_USER_TERMINATED_CONNECTION : N;
  BLE_HCI_CONN_INTERVAL_UNACCEPTABLE : N
}.

(** The values the nRF51 SDK and the Bluetooth 4.0 core specification give
    to these constants; used for the concrete runs below. *)
Definition nrf51_sdk : Headers := {|
  ERROR_NONE := 0;
  NRF_SUCCESS := 0;
  GAP_ADV_PARAMS_INTERVAL_MIN := 0x20;
  GAP_ADV_PARAMS_INTERVAL_MIN_NONCON := 0xA0;
  GAP_ADV_PARAMS_INTERVAL_MAX := 0x4000;
  GAP_ADV_PARAMS_TIMEOUT_MAX := 0x3FFF;
  BLE_GAP_ADV_FP_ANY := 0;
  BLE_GAP_ADDR_CYCLE_MODE_NONE := 0;
  BLE_HCI_REMOTE_USER_TERMINATED_CONNECTION := 0x13;
  BLE_HCI_CONN_INTERVAL_UNACCEPTABLE := 0x3B
|}.

(** Storing a value into a [uint8_t] object. *)
Definition to_uint8 (x : N) : N := x mod 2 ^ 8.

(** Storing a value of an enumeration into a [uint8_t] object: the low eight
    bits of its two's complement representation. *)
Definition enum_to_uint8 (x : Z) : N := Z.to_N (x mod 2 ^ 8).

(** ** The SoftDevice boundary *)

Record ble_gap_addr_t : Type := {
  addr_type : N;
  addr : list byte
}.

Record ble_gap_adv_params_t : Type := {
  type : GapAdvertisingParams.AdvertisingType;
  p_peer_addr : option ble_gap_addr_t;
  fp : N;
  p_whitelist : option (list ble_gap_addr_t);
  interval : N;
  timeout : N
}.

(** Modelled from the spec: [ConnectionParams_t] is declared in [Gap.h],
    outside [nRF51Gap.cpp]; it has four integer fields.  The methods hand
    it to the SoftDevice through a pointer cast to [ble_gap_conn_params_t],
    which reads the same four fields. *)
Record ConnectionParams_t : Type := {
  minInterval : N;
  maxInterval : N;
  slaveLatency : N;
  supervisionTimeout : N
}.

(** Modelled from the spec: the macro [BLE_GAP_CONN_SEC_MODE_SET_OPEN] is
    defined in [ble_gap.h], outside [nRF51Gap.cpp]; it sets a security mode
    to open (no protection), which is mode 1, level 1. *)
Record ble_gap_conn_sec_mode_t : Type := {
  sm : N;
  lv : N
}.

Definition BLE_GAP_CONN_SEC_MODE_OPEN : ble_gap_conn_sec_mode_t :=
  {| sm := 1; lv := 1 |}.

(** The SoftDevice calls the modelled methods issue, with their arguments.
    A pointer through which the SoftDevice only stores is not an
    argument. *)
Inductive sd_call : Type :=
| sd_ble_gap_adv_data_set (p_data : list byte) (dlen : N)
                          (p_sr_data : list byte) (srdlen : N)
| sd_ble_gap_appearance_set (appearance : N)
| sd_ble_gap_appearance_get
| sd_ble_gap_adv_start (p_adv_params : ble_gap_adv_params_t)
| sd_ble_gap_adv_stop
| sd_ble_gap_disconnect (conn_handle : N) (hci_status_code : N)
| sd_ble_gap_address_set (addr_cycle_mode : N) (p_addr : ble_gap_addr_t)
| sd_ble_gap_address_get
| sd_ble_gap_ppcp_get
| sd_ble_gap_ppcp_set (p_conn_params : ConnectionParams_t)
| sd_ble_gap_conn_param_update (conn_handle : N)
                               (p_conn_params : ConnectionParams_t)
| sd_ble_gap_device_name_set (p_write_perm : ble_gap_conn_sec_mode_t)
                             (p_dev_name : list byte) (len : N)
| sd_ble_gap_device_name_get.

(** One entry of the trace: the call, the status word it returned and the
    [state] member of the object at the moment the call was issued. *)
Record sd_event : Type := {
  ev_call : sd_call;
  ev_rc : N;
  ev_state : GapState_t
}.

(** The SoftDevice: the status word of a call may depend on every call made
    before it. *)
Definition SoftDevice : Type := list sd_event -> sd_call -> N.

(** The object together with the trace of SoftDevice calls made so far. *)
Record World : Type := {
  gap : nRF51Gap;
  trace : list sd_event
}.

(** ** The monad of method bodies

    A statement either falls through with a value ([inr]) or leaves the
    method with a [return e] ([inl e]). *)
Definition Gap (A : Type) : Type := World -> (ble_error_t + A) * World.

Definition ret {A : Type} (a : A) : Gap A := fun w => (inr a, w).

Definition Return {A : Type} (e : ble_error_t) : Gap A := fun w => (inl e, w).

Definition bind {A B : Type} (m : Gap A) (k : A -> Gap B) : Gap B :=
  fun w =>
    match m w with
    | (inl e, w') => (inl e, w')
    | (inr a, w') => k a w'
    end.

Declare Scope gap_scope.
Delimit Scope gap_scope with gap.
Notation "x <- m ;; k" := (bind m (fun x => k))
  (at level 61, m at next level, right associativity) : gap_scope.
Notation "m ;; k" := (bind m (fun _ => k))
  (at level 61, right associativity) : gap_scope.
Local Open Scope gap_scope.

(** A guarded [return]: [if (c) { return e; }]. *)
Definition when (c : bool) (e : ble_error_t) : Gap unit :=
  if c then Return e else ret tt.

(** Modelled from the spec: the macros [ASSERT] and [ASSERT_INT] are defined
    in [common/assertion.h], outside [nRF51Gap.cpp]; a
    failed assertion makes the enclosing method return the error kind given
    as its last argument. *)
Definition ASSERT (condition : bool) (error : ble_error_t) : Gap unit :=
  if condition then ret tt else Return error.

Definition ASSERT_INT (expected actual : N) (error : ble_error_t) : Gap unit :=
  ASSERT (expected =? actual) error.

(** Running a method body: the value of the method is the returned one. *)
Definition method (body : Gap ble_error_t) (w : World) : ble_error_t * World :=
  match body w with
  | (inl e, w') => (e, w')
  | (inr e, w') => (e, w')
  end.

Definition set_advertising (b : bool) : Gap unit :=
  fun w =>
    (inr tt,
     {| gap := {| state := {| advertising := b;
                              connected := connected (state (gap w)) |};
                  m_connectionHandle := m_connectionHandle (gap w) |};
        trace := trace w |}).

Definition set_connected (b : bool) : Gap unit :=
  fun w =>
    (inr tt,
     {| gap := {| state := {| advertising := advertising (state (gap w));
                              connected := b |};
                  m_connectionHandle := m_connectionHandle (gap w) |};
        trace := trace w |}).

Definition get_connectionHandle : Gap N :=
  fun w => (inr (m_connectionHandle (gap w)), w).

Section Methods.

Context {hdr : Headers}.
Variable sd : SoftDevice.

(** Issuing a SoftDevice call: the oracle answers, the trace grows. *)
Definition softdevice (c : sd_call) : Gap N :=
  fun w =>
    let rc := sd (trace w) c in
    (inr rc,
     {| gap := gap w;
        trace := trace w ++ [ {| ev_call := c; ev_rc := rc;
                                 ev_state := state (gap w) |} ] |}).

Definition setAdvertisingData (advData scanResponse : GapAdvertisingData.t)
  : World -> ble_error_t * World :=
  method (
    (* Make sure we don't exceed the advertising payload length *)
    when (GAP_ADVERTISING_DATA_MAX_PAYLOAD
          <? GapAdvertisingData.getPayloadLen advData)
         BLE_ERROR_BUFFER_OVERFLOW ;;
    (* Make sure we have a payload! *)
    when (GapAdvertisingData.getPayloadLen advData =? 0)
         BLE_ERROR_PARAM_OUT_OF_RANGE ;;
    (* Send advertising data! *)
    rc <- softdevice (sd_ble_gap_adv_data_set
                        (GapAdvertisingData.getPayload advData)
                        (GapAdvertisingData.getPayloadLen advData)
                        (GapAdvertisingData.getPayload scanResponse)
                        (GapAdvertisingData.getPayloadLen scanResponse)) ;;
    ASSERT (ERROR_NONE =? rc) BLE_ERROR_PARAM_OUT_OF_RANGE ;;
    (* Make sure the GAP Service appearance value is aligned with the
       appearance from GapAdvertisingData *)
    rc <- softdevice (sd_ble_gap_appearance_set
                        (GapAdvertisingData.getAppearance advData)) ;;
    ASSERT (ERROR_NONE =? rc) BLE_ERROR_PARAM_OUT_OF_RANGE ;;
    Return BLE_ERROR_NONE).

Definition startAdvertising (params : GapAdvertisingParams.t)
  : World -> ble_error_t * World :=
  let getAdvertisingType := GapAdvertisingParams.getAdvertisingType params in
  let getInterval := GapAdvertisingParams.getInterval params in
  let getTimeout := GapAdvertisingParams.getTimeout params in
  method (
    (* Make sure we support the advertising type *)
    when (getAdvertisingType == ADV_CONNECTABLE_DIRECTED)
         BLE_ERROR_NOT_IMPLEMENTED ;;
    (* Check interval range *)
    (if getAdvertisingType == ADV_NON_CONNECTABLE_UNDIRECTED
     then
       (* Min delay is slightly longer for unconnectable devices *)
       when ((getInterval <? GAP_ADV_PARAMS_INTERVAL_MIN_NONCON)
             || (GAP_ADV_PARAMS_INTERVAL_MAX <? getInterval))
            BLE_ERROR_PARAM_OUT_OF_RANGE
     else
       when ((getInterval <? GAP_ADV_PARAMS_INTERVAL_MIN)
             || (GAP_ADV_PARAMS_INTERVAL_MAX <? getInterval))
            BLE_ERROR_PARAM_OUT_OF_RANGE) ;;
    (* Check timeout is zero for Connectable Directed *)
    when ((getAdvertisingType == ADV_CONNECTABLE_DIRECTED)
          && negb (getTimeout =? 0))
         BLE_ERROR_PARAM_OUT_OF_RANGE ;;
    (* Check timeout for other advertising types *)
    when (negb (getAdvertisingType == ADV_CONNECTABLE_DIRECTED)
          && (GAP_ADV_PARAMS_TIMEOUT_MAX <? getTimeout))
         BLE_ERROR_PARAM_OUT_OF_RANGE ;;
    (* Start Advertising *)
    let adv_para :=
      {| type := getAdvertisingType;
         p_peer_addr := None;
         fp := BLE_GAP_ADV_FP_ANY;
         p_whitelist := None;
         interval := getInterval;
         timeout := getTimeout |} in
    rc <- softdevice (sd_ble_gap_adv_start adv_para) ;;
    ASSERT (ERROR_NONE =? rc) BLE_ERROR_PARAM_OUT_OF_RANGE ;;
    set_advertising true ;;
    Return BLE_ERROR_NONE).

Definition stopAdvertising : World -> ble_error_t * World :=
  method (
    (* Stop Advertising *)
    rc <- softdevice sd_ble_gap_adv_stop ;;
    ASSERT (ERROR_NONE =? rc) BLE_ERROR_PARAM_OUT_OF_RANGE ;;
    set_advertising false ;;
    Return BLE_ERROR_NONE).

Definition disconnect (reason : DisconnectionReason_t)
  : World -> ble_error_t * World :=
  method (
    set_advertising false ;;
    set_connected false ;;
    let code := to_uint8 BLE_HCI_REMOTE_USER_TERMINATED_CONNECTION in
    let code :=
      match reason with
      | REMOTE_USER_TERMINATED_CONNECTION =>
          to_uint8 BLE_HCI_REMOTE_USER_TERMINATED_CONNECTION
      | CONN_INTERVAL_UNACCEPTABLE =>
          to_uint8 BLE_HCI_CONN_INTERVAL_UNACCEPTABLE
      | UNMAPPED_REASON _ => code
      end in
    (* Disconnect if we are connected to a central device *)
    handle <- get_connectionHandle ;;
    rc <- softdevice (sd_ble_gap_disconnect handle code) ;;
    ASSERT_INT ERROR_NONE rc BLE_ERROR_PARAM_OUT_OF_RANGE ;;
    Return BLE_ERROR_NONE).

Definition setConnectionHandle (con_handle : N) (w : World) : World :=
  {| gap := {| state := state (gap w); m_connectionHandle := con_handle |};
     trace := trace w |}.

Definition getConnectionHandle (w : World) : N :=
  m_connectionHandle (gap w).

Definition setAddress (type : addr_type_t) (address : list byte)
  : World -> ble_error_t * World :=
  method (
    when (ADDR_TYPE_RANDOM_PRIVATE_NON_RESOLVABLE <? type)%Z
         BLE_ERROR_PARAM_OUT_OF_RANGE ;;
    let dev_addr :=
      {| addr_type := enum_to_uint8 type;
         addr := firstn ADDR_LEN address |} in
    rc <- softdevice (sd_ble_gap_address_set BLE_GAP_ADDR_CYCLE_MODE_NONE
                                             dev_addr) ;;
    ASSERT_INT ERROR_NONE rc BLE_ERROR_PARAM_OUT_OF_RANGE ;;
    Return BLE_ERROR_NONE).

Definition setAppearance (appearance : N) : World -> ble_error_t * World :=
  method (
    rc <- softdevice (sd_ble_gap_appearance_set appearance) ;;
    if rc =? NRF_SUCCESS
    then Return BLE_ERROR_NONE
    else Return BLE_ERROR_PARAM_OUT_OF_RANGE).

(** The value the SoftDevice stores through [appearanceP] lies in the
    caller's memory; the method itself only inspects the status word, which
    it uses as the condition of the [if]: any non-zero word is true. *)
Definition getAppearance : World -> ble_error_t * World :=
  method (
    rc <- softdevice sd_ble_gap_appearance_get ;;
    if negb (rc =? 0)
    then Return BLE_ERROR_NONE
    else Return BLE_ERROR_PARAM_OUT_OF_RANGE).

End Methods.

(** ** Concrete SoftDevices and a freshly constructed object *)

(** A SoftDevice that accepts every call (status 0). *)
Definition sd_accept : SoftDevice := fun _ _ => 0.

(** A SoftDevice that rejects every call with [NRF_ERROR_INVALID_PARAM]. *)
Definition sd_reject : SoftDevice := fun _ _ => 7.

(** A SoftDevice that accepts everything except [sd_ble_gap_appearance_set]. *)
Definition sd_reject_appearance : SoftDevice :=
  fun _ c =>
    match c with
    | sd_ble_gap_appearance_set _ => 7
    | _ => 0
    end.

(** The object after construction: not advertising, not connected, with
    the invalid connection handle. *)
Definition initial_world : World :=
  {| gap := {| state := {| advertising := false; connected := false |};
               m_connectionHandle := 0xFFFF |};
     trace := [] |}.

(** The same object while advertising on an established link. *)
Definition busy_world : World :=
  {| gap := {| state := {| advertising := true; connected := true |};
               m_connectionHandle := 1 |};
     trace := [] |}.

(** A one-byte primary payload, with the appearance of a heart rate
    sensor. *)
Definition short_advData : GapAdvertisingData.t :=
  {| GapAdvertisingData.getPayload := [x06];
     GapAdvertisingData.getAppearance := 0x0341 |}.

(** An empty scan response and one of 32 bytes. *)
Definition empty_scanResponse : GapAdvertisingData.t :=
  {| GapAdvertisingData.getPayload := [];
     GapAdvertisingData.getAppearance := 0 |}.

Definition long_scanResponse : GapAdvertisingData.t :=
  {| GapAdvertisingData.getPayload := repeat x00 32;
     GapAdvertisingData.getAppearance := 0 |}.

(** ** Vocabulary of the statements *)

(** The entry a call leaves in the trace when it is issued in world [w]. *)
Definition event_of (sd : SoftDevice) (w : World) (c : sd_call) : sd_event :=
  {| ev_call := c; ev_rc := sd (trace w) c; ev_state := state (gap w) |}.

(** The parameter record [startAdvertising] hands to the SoftDevice. *)
Definition adv_para_of {hdr : Headers} (params : GapAdvertisingParams.t)
  : ble_gap_adv_params_t :=
  {| type := GapAdvertisingParams.getAdvertisingType params;
     p_peer_addr := None;
     fp := BLE_GAP_ADV_FP_ANY;
     p_whitelist := None;
     interval := GapAdvertisingParams.getInterval params;
     timeout := GapAdvertisingParams.getTimeout params |}.

(** The outcome of the four parameter checks at the head of
    [startAdvertising], read off its guards in order: the error they return,
    or [None] when the request goes on to the SoftDevice. *)
Definition param_checks {hdr : Headers} (params : GapAdvertisingParams.t)
  : option ble_error_t :=
  let ty := GapAdvertisingParams.getAdvertisingType params in
  let itv := GapAdvertisingParams.getInterval params in
  let tmo := GapAdvertisingParams.getTimeout params in
  if ty == ADV_CONNECTABLE_DIRECTED then Some BLE_ERROR_NOT_IMPLEMENTED
  else if (if ty == ADV_NON_CONNECTABLE_UNDIRECTED
           then (itv <? GAP_ADV_PARAMS_INTERVAL_MIN_NONCON)
                || (GAP_ADV_PARAMS_INTERVAL_MAX <? itv)
           else (itv <? GAP_ADV_PARAMS_INTERVAL_MIN)
                || (GAP_ADV_PARAMS_INTERVAL_MAX <? itv))
       then Some BLE_ERROR_PARAM_OUT_OF_RANGE
  else if (ty == ADV_CONNECTABLE_DIRECTED) && negb (tmo =? 0)
       then Some BLE_ERROR_PARAM_OUT_OF_RANGE
  else if negb (ty == ADV_CONNECTABLE_DIRECTED)
          && (GAP_ADV_PARAMS_TIMEOUT_MAX <? tmo)
       then Some BLE_ERROR_PARAM_OUT_OF_RANGE
  else None.

(** The object [g] with its [advertising] bit replaced. *)
Definition with_advertising (b : bool) (g : nRF51Gap) : nRF51Gap :=
  {| state := {| advertising := b; connected := connected (state g) |};
     m_connectionHandle := m_connectionHandle g |}.

(** The HCI code [disconnect] passed to the SoftDevice in its last call. *)
Definition issued_disconnect_code (w : World) : option N :=
  match rev (trace w) with
  | e :: _ =>
      match ev_call e with
      | sd_ble_gap_disconnect _ code => Some code
      | _ => None
      end
  | [] => None
  end.

(** The call with which [setAdvertisingData] forwards the two buffers. *)
Definition adv_data_call (advData scanResponse : GapAdvertisingData.t)
  : sd_call :=
  sd_ble_gap_adv_data_set
    (GapAdvertisingData.getPayload advData)
    (GapAdvertisingData.getPayloadLen advData)
    (GapAdvertisingData.getPayload scanResponse)
    (GapAdvertisingData.getPayloadLen scanResponse).

(** The four enumerators of [addr_type_t]. *)
Definition defined_addr_types : list addr_type_t :=
  [ ADDR_TYPE_PUBLIC; ADDR_TYPE_RANDOM_STATIC;
    ADDR_TYPE_RANDOM_PRIVATE_RESOLVABLE;
    ADDR_TYPE_RANDOM_PRIVATE_NON_RESOLVABLE ].

(** The interval bound of an advertising type: the lower end is
    [GAP_ADV_PARAMS_INTERVAL_MIN_NONCON] for non-connectable advertising and
    [GAP_ADV_PARAMS_INTERVAL_MIN] otherwise. *)
Definition interval_in_bounds {hdr : Headers}
  (ty : AdvertisingType) (itv : N) : Prop :=
  (if ty == ADV_NON_CONNECTABLE_UNDIRECTED
   then GAP_ADV_PARAMS_INTERVAL_MIN_NONCON
   else GAP_ADV_PARAMS_INTERVAL_MIN) <= itv
  /\ itv <= GAP_ADV_PARAMS_INTERVAL_MAX.

(** [startAdvertising] rejected the request in its parameter checks: it
    returned [e] and neither the object nor the SoftDevice was touched. *)
Definition rejected_by_checks {hdr : Headers} (sd : SoftDevice)
  (e : ble_error_t) (params : GapAdvertisingParams.t) (w : World) : Prop :=
  startAdvertising sd params w = (e, w).

(** ** Proof support *)

(** The calls a method run added to the trace of [w]. *)
Definition new_events (w w' : World) : list sd_event :=
  skipn (length (trace w)) (trace w').

(** All-or-nothing forwarding: the run either succeeds with every call it
    issued accepted by the SoftDevice, or fails with
    [BLE_ERROR_PARAM_OUT_OF_RANGE], the object unchanged and none of its
    calls accepted. *)
Definition forwarded_atomically {hdr : Headers}
  (r : ble_error_t * World) (w : World) : Prop :=
  (fst r = BLE_ERROR_NONE
   /\ forall e : sd_event, In e (new_events w (snd r)) -> ev_rc e = ERROR_NONE)
  \/ (fst r = BLE_ERROR_PARAM_OUT_OF_RANGE
      /\ gap (snd r) = gap w
      /\ forall e : sd_event,
           In e (new_events w (snd r)) -> ev_rc e <> ERROR_NONE).

(** ** Reading the address and naming the device

    [getAddress] and [setDeviceName] neither read nor write the members of
    the object; the SoftDevice functions they call are parameters of the
    section.  A pointer argument is [None] when it is [NULL] and [Some v]
    when it points to an object that holds [v]; the methods return the
    objects as they are left. *)

(** [memcpy (dst, src, n)] on buffers that hold at least [n] bytes: the
    first [n] bytes of [dst] are replaced, the rest is kept. *)
Definition memcpy (dst src : list byte) (n : nat) : list byte :=
  firstn n src ++ skipn n dst.

(** [strlen]: the number of bytes before the first NUL.  (On a byte
    sequence without NUL the C function runs past the end; here it stops
    there.) *)
Fixpoint strlen (s : list byte) : N :=
  match s with
  | [] => 0
  | x00 :: _ => 0
  | _ :: s' => N.succ (strlen s')
  end.

(** Passing a value as a [uint16_t] argument. *)
Definition to_uint16 (x : N) : N := x mod 2 ^ 16.

Section Identity.

Context {hdr : Headers}.

(** The answer of [sd_ble_gap_address_get]: its status word and the address
    it stores through [p_addr]. *)
Variable sd_ble_gap_address_get : N * ble_gap_addr_t.

(** The security mode that the macro [BLE_GAP_CONN_SEC_MODE_SET_OPEN] of
    [ble_gap.h] stores, and [sd_ble_gap_device_name_set] as a function of
    its three arguments. *)
Variable ble_gap_conn_sec_mode_t : Type.
Variable BLE_GAP_CONN_SEC_MODE_OPEN : ble_gap_conn_sec_mode_t.
Variable sd_ble_gap_device_name_set :
  ble_gap_conn_sec_mode_t -> list byte -> N -> N.

Definition getAddress (typeP : option addr_type_t)
  (addressP : option (list byte))
  : ble_error_t * (option addr_type_t * option (list byte)) :=
  let (rc, dev_addr) := sd_ble_gap_address_get in
  if negb (rc =? NRF_SUCCESS)
  then (BLE_ERROR_PARAM_OUT_OF_RANGE, (typeP, addressP))
  else
    let typeP :=
      match typeP with
      | Some _ => Some (Z.of_N (addr_type dev_addr))
      | None => None
      end in
    let addressP :=
      match addressP with
      | Some buffer => Some (memcpy buffer (addr dev_addr) ADDR_LEN)
      | None => None
      end in
    (BLE_ERROR_NONE, (typeP, addressP)).

Definition setDeviceName (deviceName : list byte) : ble_error_t :=
  let sec_mode := BLE_GAP_CONN_SEC_MODE_OPEN in (* no security is needed *)
  if sd_ble_gap_device_name_set sec_mode deviceName
       (to_uint16 (strlen deviceName)) =? NRF_SUCCESS
  then BLE_ERROR_NONE
  else BLE_ERROR_PARAM_OUT_OF_RANGE.

End Identity.

(** ** The connection parameters and reading the name

    The remaining methods of the class, in the monad of the methods above.
    What the SoftDevice stores through [params], [deviceName] and [lengthP]
    lies in the caller's memory; the methods only inspect the status
    word. *)

Section Connection.

Context {hdr : Headers}.
Variable sd : SoftDevice.

Definition getPreferredConnectionParams : World -> ble_error_t * World :=
  method (
    rc <- softdevice sd sd_ble_gap_ppcp_get ;;
    ASSERT_INT NRF_SUCCESS rc BLE_ERROR_PARAM_OUT_OF_RANGE ;;
    Return BLE_ERROR_NONE).

Definition setPreferredConnectionParams (params : ConnectionParams_t)
  : World -> ble_error_t * World :=
  method (
    rc <- softdevice sd (sd_ble_gap_ppcp_set params) ;;
    ASSERT_INT NRF_SUCCESS rc BLE_ERROR_PARAM_OUT_OF_RANGE ;;
    Return BLE_ERROR_NONE).

Definition updateConnectionParams (handle : N) (newParams : ConnectionParams_t)
  : World -> ble_error_t * World :=
  method (
    rc <- softdevice sd (sd_ble_gap_conn_param_update handle newParams) ;;
    if rc =? NRF_SUCCESS
    then Return BLE_ERROR_NONE
    else Return BLE_ERROR_PARAM_OUT_OF_RANGE).

Definition getDeviceName : World -> ble_error_t * World :=
  method (
    rc <- softdevice sd sd_ble_gap_device_name_get ;;
    if rc =? NRF_SUCCESS
    then Return BLE_ERROR_NONE
    else Return BLE_ERROR_PARAM_OUT_OF_RANGE).

End Connection.

(** ** A client of the object

    A request is one call of a method of the class, with its arguments (for
    a pointer argument of [getAddress], the object it points to, if any);
    every method of [nRF51Gap.cpp] is a request.  [run] performs a sequence
    of requests, as a client of the class does, and collects the values
    returned.  [getAddress] and [setDeviceName] are run on the answers of
    the SoftDevice, whose calls enter the trace like any other; the address
    that [sd_ble_gap_address_get] stores is given by [sd_address]. *)
Inductive request : Type :=
| call_setAdvertisingData (advData scanResponse : GapAdvertisingData.t)
| call_startAdvertising (params : GapAdvertisingParams.t)
| call_stopAdvertising
| call_disconnect (reason : DisconnectionReason_t)
| call_getPreferredConnectionParams
| call_setPreferredConnectionParams (params : ConnectionParams_t)
| call_updateConnectionParams (handle : N) (newParams : ConnectionParams_t)
| call_setConnectionHandle (con_handle : N)
| call_getConnectionHandle
| call_setAddress (type : addr_type_t) (address : list byte)
| call_getAddress (typeP : option addr_type_t) (addressP : option (list byte))
| call_setDeviceName (deviceName : list byte)
| call_getDeviceName
| call_setAppearance (appearance : N)
| call_getAppearance.

(** What a method hands back to its caller. *)
Inductive outcome : Type :=
| returned_void
| returned_handle (con_handle : N)
| returned_error (e : ble_error_t).

Definition perform {hdr : Headers} (sd : SoftDevice)
  (sd_address : list sd_event -> ble_gap_addr_t) (r : request) (w : World)
  : outcome * World :=
  let returned (rw : ble_error_t * World) :=
    (returned_error (fst rw), snd rw) in
  match r with
  | call_setAdvertisingData advData scanResponse =>
      returned (setAdvertisingData sd advData scanResponse w)
  | call_startAdvertising params => returned (startAdvertising sd params w)
  | call_stopAdvertising => returned (stopAdvertising sd w)
  | call_disconnect reason => returned (disconnect sd reason w)
  | call_getPreferredConnectionParams =>
      returned (getPreferredConnectionParams sd w)
  | call_setPreferredConnectionParams params =>
      returned (setPreferredConnectionParams sd params w)
  | call_updateConnectionParams handle newParams =>
      returned (updateConnectionParams sd handle newParams w)
  | call_setConnectionHandle con_handle =>
      (returned_void, setConnectionHandle con_handle w)
  | call_getConnectionHandle => (returned_handle (getConnectionHandle w), w)
  | call_setAddress type address => returned (setAddress sd type address w)
  | call_getAddress typeP addressP =>
      let answer :=
        (sd (trace w) sd_ble_gap_address_get, sd_address (trace w)) in
      (returned_error (fst (getAddress answer typeP addressP)),
       snd (softdevice sd sd_ble_gap_address_get w))
  | call_setDeviceName deviceName =>
      let device_name_set p_write_perm p_dev_name len :=
        sd (trace w) (sd_ble_gap_device_name_set p_write_perm p_dev_name len)
      in
      (returned_error
         (setDeviceName ble_gap_conn_sec_mode_t BLE_GAP_CONN_SEC_MODE_OPEN
            device_name_set deviceName),
       snd (softdevice sd
              (sd_ble_gap_device_name_set BLE_GAP_CONN_SEC_MODE_OPEN
                 deviceName (to_uint16 (strlen deviceName))) w))
  | call_getDeviceName => returned (getDeviceName sd w)
  | call_setAppearance appearance => returned (setAppearance sd appearance w)
  | call_getAppearance => returned (getAppearance sd w)
  end.

Fixpoint run {hdr : Headers} (sd : SoftDevice)
  (sd_address : list sd_event -> ble_gap_addr_t) (rs : list request)
  (w : World) : list outcome * World :=
  match rs with
  | [] => ([], w)
  | r :: rs' =>
      let (e, w1) := perform sd sd_address r w in
      let (es, w2) := run sd sd_address rs' w1 in
      (e :: es, w2)
  end.

(** The most SoftDevice calls a request can issue. *)
Definition softdevice_calls (r : request) : nat :=
  match r with
  | call_setAdvertisingData _ _ => 2
  | call_setConnectionHandle _ | call_getConnectionHandle => 0
  | _ => 1
  end.

(** What the history of SoftDevice calls says about advertising: an
    accepted [sd_ble_gap_adv_start] turns it on, an accepted
    [sd_ble_gap_adv_stop] and any [sd_ble_gap_disconnect] turn it off. *)
Definition advertising_step {hdr : Headers} (b : bool) (e : sd_event) : bool :=
  match ev_call e with
  | sd_ble_gap_adv_start _ => if ERROR_NONE =? ev_rc e then true else b
  | sd_ble_gap_adv_stop => if ERROR_NONE =? ev_rc e then false else b
  | sd_ble_gap_disconnect _ _ => false
  | _ => b
  end.

Definition advertising_after {hdr : Headers} (evs : list sd_event) (b : bool)
  : bool :=
  fold_left advertising_step evs b.

(** Whether a trace entry is a call of [sd_ble_gap_disconnect]. *)
Definition is_disconnect (e : sd_event) : bool :=
  match ev_call e with
  | sd_ble_gap_disconnect _ _ => true
  | _ => false
  end.

(** The handle a sequence of requests leaves in [m_connectionHandle]: the
    one of its last [setConnectionHandle], or the initial one. *)
Definition handle_after (rs : list request) (h : N) : N :=
  fold_left
    (fun h r =>
       match r with
       | call_setConnectionHandle con_handle => con_handle
       | _ => h
       end) rs h.

(** The world [w] with the [state] member of its object replaced. *)
Definition with_state (s : GapState_t) (w : World) : World :=
  {| gap := {| state := s; m_connectionHandle := m_connectionHandle (gap w) |};
     trace := trace w |}.

(** What the SoftDevice sees of a trace entry: the call and its status. *)
Definition observable (e : sd_event) : sd_call * N := (ev_call e, ev_rc e).

(** The address of the last [sd_ble_gap_address_set] call of a trace. *)
Definition last_address_set (w : World) : option ble_gap_addr_t :=
  match rev (trace w) with
  | e :: _ =>
      match ev_call e with
      | sd_ble_gap_address_set _ p_addr => Some p_addr
      | _ => None
      end
  | [] => None
  end.

(** A device address, as in the example of the documentation of
    [setAddress]. *)
Definition device_address : list byte := [xca; xfe; xf0; xf0; xf0; xf0].

(** A SoftDevice that always stores the address above, as a random static
    address. *)
Definition sd_fixed_address (_ : list sd_event) : ble_gap_addr_t :=
  {| addr_type := 1; addr := device_address |}.

(** A SoftDevice that accepts names of four bytes only. *)
Definition accept_four_bytes (_ : unit) (_ : list byte) (len : N) : N :=
  if len =? 4 then 0 else 7.

Ltac unfold_gap :=
  unfold method, bind, when, ASSERT_INT, ASSERT, softdevice, set_advertising,
    set_connected, get_connectionHandle, Return, ret in *.

Ltac split_ifs :=
  repeat match goal with
  | |- context [if ?c then _ else _] =>
      let E := fresh "E" in destruct c eqn:E; simpl
  end.

(** Closes a goal with a hypothesis that equates a trace, or a world, with
    a strictly longer one. *)
Ltac absurd_trace :=
  exfalso;
  match goal with
  | H : exists _, _ |- _ => destruct H as [? H]
  | _ => idtac
  end;
  match goal with
  | H : (_, _) = (_, _) |- _ =>
      apply (f_equal (fun p => trace (snd p))) in H; simpl in H
  | H : @eq (list sd_event) _ _ |- _ => idtac
  end;
  match goal with
  | H : @eq (list sd_event) _ _ |- _ =>
      apply (f_equal (@length sd_event)) in H;
      repeat (rewrite length_app in H; simpl in H); lia
  end.

(** A [uint8_t] holds every value below 256 unchanged. *)
Lemma to_uint8_small : forall x : N, x < 2 ^ 8 -> to_uint8 x = x.
Proof. intros x Hx. unfold to_uint8. apply N.mod_small. exact Hx. Qed.

(** * Properties *)

Section Properties.

Context {hdr : Headers}.
Variable sd : SoftDevice.

(** C1: [startAdvertising] and [stopAdvertising] commit the [advertising]
    bit only on full success.  A call of [startAdvertising] ends in exactly
    one of three ways: the parameter checks fail (their error is returned, no
    SoftDevice call is made, the world is untouched); the checks pass and
    [sd_ble_gap_adv_start] fails (the object is untouched, the result is
    [BLE_ERROR_PARAM_OUT_OF_RANGE]); or the checks pass and the call
    succeeds, and only then [advertising] becomes true.  [stopAdvertising]
    leaves the object untouched when [sd_ble_gap_adv_stop] fails and clears
    [advertising] only when it succeeds. *)
Theorem advertising_committed_only_on_success :
  forall (params : GapAdvertisingParams.t) (w : World),
    let started := startAdvertising sd params w in
    let start_ev := event_of sd w (sd_ble_gap_adv_start (adv_para_of params)) in
    let stopped := stopAdvertising sd w in
    let stop_ev := event_of sd w sd_ble_gap_adv_stop in
    ((param_checks params = Some (fst started)
      /\ fst started <> BLE_ERROR_NONE
      /\ snd started = w)
     \/ (param_checks params = None
         /\ ev_rc start_ev <> ERROR_NONE
         /\ fst started = BLE_ERROR_PARAM_OUT_OF_RANGE
         /\ gap (snd started) = gap w
         /\ trace (snd started) = trace w ++ [start_ev])
     \/ (param_checks params = None
         /\ ev_rc start_ev = ERROR_NONE
         /\ fst started = BLE_ERROR_NONE
         /\ gap (snd started) = with_advertising true (gap w)
         /\ trace (snd started) = trace w ++ [start_ev]))
    /\
    ((ev_rc stop_ev <> ERROR_NONE
      /\ fst stopped = BLE_ERROR_PARAM_OUT_OF_RANGE
      /\ gap (snd stopped) = gap w
      /\ trace (snd stopped) = trace w ++ [stop_ev])
     \/ (ev_rc stop_ev = ERROR_NONE
         /\ fst stopped = BLE_ERROR_NONE
         /\ gap (snd stopped) = with_advertising false (gap w)
         /\ trace (snd stopped) = trace w ++ [stop_ev])).
Proof.
  intros params w. cbv zeta. split.
  - unfold startAdvertising, param_checks, event_of, adv_para_of.
    unfold_gap. simpl.
    destruct (GapAdvertisingParams.getAdvertisingType params); simpl;
      split_ifs;
      try (left; split; [reflexivity | split; [discriminate | reflexivity]]);
      right;
      match goal with
      | H : (ERROR_NONE =? _) = true |- _ =>
          apply N.eqb_eq in H; right; rewrite <- H; simpl; auto
      | H : (ERROR_NONE =? _) = false |- _ =>
          apply N.eqb_neq in H; left; simpl;
          split; [reflexivity | split; [congruence | auto]]
      end.
  - unfold stopAdvertising, event_of. unfold_gap. simpl.
    split_ifs;
      match goal with
      | H : (ERROR_NONE =? _) = true |- _ =>
          apply N.eqb_eq in H; right; rewrite <- H; simpl; auto
      | H : (ERROR_NONE =? _) = false |- _ =>
          apply N.eqb_neq in H; left; simpl;
          split; [congruence | auto]
      end.
Qed.

(** C2: [disconnect] clears [advertising] and [connected] before it issues
    [sd_ble_gap_disconnect]: the SoftDevice call is made on an object whose
    two bits are already false, and they are false afterwards whatever the
    status word is; the result is [BLE_ERROR_PARAM_OUT_OF_RANGE] exactly when
    the call fails. *)
Theorem disconnect_clears_state_before_call :
  forall (reason : DisconnectionReason_t) (w : World),
    let cleared := {| advertising := false; connected := false |} in
    let done := disconnect sd reason w in
    state (gap (snd done)) = cleared
    /\ m_connectionHandle (gap (snd done)) = m_connectionHandle (gap w)
    /\ exists code : N,
        let call := sd_ble_gap_disconnect (m_connectionHandle (gap w)) code in
        let rc := sd (trace w) call in
        trace (snd done)
        = trace w ++ [ {| ev_call := call; ev_rc := rc; ev_state := cleared |} ]
        /\ (fst done = BLE_ERROR_NONE <-> rc = ERROR_NONE)
        /\ (fst done = BLE_ERROR_PARAM_OUT_OF_RANGE <-> rc <> ERROR_NONE).
Proof.
  intros reason w. cbv zeta.
  unfold disconnect. unfold_gap. simpl.
  match goal with
  | |- context [sd_ble_gap_disconnect _ ?c] =>
      set (code := c)
  end.
  destruct (ERROR_NONE =? sd (trace w)
              (sd_ble_gap_disconnect (m_connectionHandle (gap w)) code))
    eqn:E; simpl.
  - apply N.eqb_eq in E.
    split; [reflexivity | split; [reflexivity | ]].
    exists code. split; [reflexivity | ].
    split; split; intro; congruence.
  - apply N.eqb_neq in E.
    split; [reflexivity | split; [reflexivity | ]].
    exists code. split; [reflexivity | ].
    split; split; intro; congruence.
Qed.

(** C10: [disconnect] maps the reason to an HCI code.  With the two HCI
    codes of the header fitting the [uint8_t] local that holds the code,
    [REMOTE_USER_TERMINATED_CONNECTION] is sent as
    [BLE_HCI_REMOTE_USER_TERMINATED_CONNECTION],
    [CONN_INTERVAL_UNACCEPTABLE] as [BLE_HCI_CONN_INTERVAL_UNACCEPTABLE], and
    every other reason as [BLE_HCI_REMOTE_USER_TERMINATED_CONNECTION], so
    the call always carries one of the two codes. *)
Theorem disconnect_reason_code :
  forall w : World,
    BLE_HCI_REMOTE_USER_TERMINATED_CONNECTION < 2 ^ 8 ->
    BLE_HCI_CONN_INTERVAL_UNACCEPTABLE < 2 ^ 8 ->
    let code_sent reason :=
      issued_disconnect_code (snd (disconnect sd reason w)) in
    code_sent REMOTE_USER_TERMINATED_CONNECTION
    = Some BLE_HCI_REMOTE_USER_TERMINATED_CONNECTION
    /\ code_sent CONN_INTERVAL_UNACCEPTABLE
       = Some BLE_HCI_CONN_INTERVAL_UNACCEPTABLE
    /\ (forall raw : N,
          code_sent (UNMAPPED_REASON raw)
          = Some BLE_HCI_REMOTE_USER_TERMINATED_CONNECTION)
    /\ (forall reason : DisconnectionReason_t,
          code_sent reason = Some BLE_HCI_REMOTE_USER_TERMINATED_CONNECTION
          \/ code_sent reason = Some BLE_HCI_CONN_INTERVAL_UNACCEPTABLE).
Proof.
  intros w Hremote Hunacceptable. cbv zeta.
  assert (Sent : forall reason,
             issued_disconnect_code (snd (disconnect sd reason w))
             = Some (match reason with
                     | CONN_INTERVAL_UNACCEPTABLE =>
                         BLE_HCI_CONN_INTERVAL_UNACCEPTABLE
                     | _ => BLE_HCI_REMOTE_USER_TERMINATED_CONNECTION
                     end)).
  { intros reason. unfold issued_disconnect_code, disconnect. unfold_gap.
    simpl.
    destruct reason; split_ifs; rewrite rev_unit; simpl;
      rewrite to_uint8_small by assumption; reflexivity. }
  repeat split; intros; try apply Sent.
  rewrite Sent. destruct reason; auto.
Qed.

(** C5: for [ADV_CONNECTABLE_DIRECTED], [startAdvertising] returns
    [BLE_ERROR_NOT_IMPLEMENTED] for every interval and every timeout, before
    the interval and timeout checks and without touching the object or the
    SoftDevice. *)
Theorem startAdvertising_directed_not_implemented :
  forall (itv tmo : N) (w : World),
    startAdvertising sd
      {| GapAdvertisingParams.getAdvertisingType := ADV_CONNECTABLE_DIRECTED;
         GapAdvertisingParams.getInterval := itv;
         GapAdvertisingParams.getTimeout := tmo |} w
    = (BLE_ERROR_NOT_IMPLEMENTED, w).
Proof.
  intros itv tmo w. unfold startAdvertising. unfold_gap. reflexivity.
Qed.

(** C3: with [L] the byte length of the primary payload,
    [setAdvertisingData] returns [BLE_ERROR_BUFFER_OVERFLOW] exactly when
    [L > 31] (and then no SoftDevice call is made), it returns
    [BLE_ERROR_PARAM_OUT_OF_RANGE] without any SoftDevice call exactly when
    [L = 0], and it goes on to forward the buffers exactly when
    [1 <= L <= 31]. *)
Theorem setAdvertisingData_payload_length :
  forall (advData scanResponse : GapAdvertisingData.t) (w : World),
    let L := GapAdvertisingData.getPayloadLen advData in
    let r := setAdvertisingData sd advData scanResponse w in
    (fst r = BLE_ERROR_BUFFER_OVERFLOW <-> 31 < L)
    /\ (r = (BLE_ERROR_BUFFER_OVERFLOW, w) <-> 31 < L)
    /\ (r = (BLE_ERROR_PARAM_OUT_OF_RANGE, w) <-> L = 0)
    /\ (1 <= L <= 31 <->
        exists rest : list sd_event,
          trace (snd r)
          = trace w
              ++ event_of sd w (adv_data_call advData scanResponse) :: rest).
Proof.
  intros advData scanResponse w. cbv zeta.
  unfold setAdvertisingData, event_of, adv_data_call,
    GAP_ADVERTISING_DATA_MAX_PAYLOAD.
  unfold_gap.
  destruct (31 <? GapAdvertisingData.getPayloadLen advData) eqn:Hmax;
    [apply N.ltb_lt in Hmax | apply N.ltb_ge in Hmax]; simpl.
  { (* the payload is too long *)
    repeat split; intros; auto; try discriminate; try lia; absurd_trace. }
  destruct (GapAdvertisingData.getPayloadLen advData =? 0) eqn:Hzero;
    [apply N.eqb_eq in Hzero | apply N.eqb_neq in Hzero]; simpl.
  { (* the payload is empty *)
    repeat split; intros; auto; try discriminate; try lia; absurd_trace. }
  (* the payload is forwarded *)
  split_ifs.
  all: repeat split; intros; auto; try discriminate; try lia.
  all: try absurd_trace.
  all: try (eexists; rewrite <- app_assoc; simpl; reflexivity).
  all: try (exists []; reflexivity).
Qed.

(** The guard of [setAddress] is an upper bound only: the request is
    rejected without a SoftDevice call exactly when the type lies above the
    last enumerator. *)
Lemma setAddress_rejects_above_last_enumerator :
  forall (type : addr_type_t) (address : list byte) (w : World),
    setAddress sd type address w = (BLE_ERROR_PARAM_OUT_OF_RANGE, w)
    <-> (ADDR_TYPE_RANDOM_PRIVATE_NON_RESOLVABLE < type)%Z.
Proof.
  intros type address w.
  unfold setAddress, ADDR_TYPE_RANDOM_PRIVATE_NON_RESOLVABLE. unfold_gap.
  destruct (3 <? type)%Z eqn:Hgt;
    [apply Z.ltb_lt in Hgt | apply Z.ltb_ge in Hgt]; simpl.
  - split; [intros _; exact Hgt | reflexivity].
  - split; [ | lia]. split_ifs; intros H; absurd_trace.
Qed.

(** A type below the first enumerator passes the guard: the SoftDevice is
    called, with the low eight bits of the value as address type. *)
Lemma setAddress_forwards_type_below_first_enumerator :
  forall (type : addr_type_t) (address : list byte) (w : World),
    (type < ADDR_TYPE_PUBLIC)%Z ->
    ~ In type defined_addr_types
    /\ trace (snd (setAddress sd type address w))
       = trace w
           ++ [ event_of sd w
                  (sd_ble_gap_address_set BLE_GAP_ADDR_CYCLE_MODE_NONE
                     {| addr_type := enum_to_uint8 type;
                        addr := firstn ADDR_LEN address |}) ].
Proof.
  intros type address w Hneg.
  unfold ADDR_TYPE_PUBLIC in Hneg. split.
  - unfold defined_addr_types, ADDR_TYPE_PUBLIC, ADDR_TYPE_RANDOM_STATIC,
      ADDR_TYPE_RANDOM_PRIVATE_RESOLVABLE,
      ADDR_TYPE_RANDOM_PRIVATE_NON_RESOLVABLE.
    simpl. lia.
  - unfold setAddress, event_of, ADDR_TYPE_RANDOM_PRIVATE_NON_RESOLVABLE.
    unfold_gap.
    destruct (3 <? type)%Z eqn:Hgt; [apply Z.ltb_lt in Hgt; lia | ].
    simpl. split_ifs; reflexivity.
Qed.

(** X8: for the four enumerators [setAddress] does reach the SoftDevice,
    with address cycling disabled, the type as given and the first six bytes
    of the address. *)
Lemma setAddress_forwards_defined_type :
  forall (type : addr_type_t) (address : list byte) (w : World),
    In type defined_addr_types ->
    trace (snd (setAddress sd type address w))
    = trace w
        ++ [ event_of sd w
               (sd_ble_gap_address_set BLE_GAP_ADDR_CYCLE_MODE_NONE
                  {| addr_type := Z.to_N type;
                     addr := firstn ADDR_LEN address |}) ].
Proof.
  intros type address w Hin.
  unfold defined_addr_types, ADDR_TYPE_PUBLIC, ADDR_TYPE_RANDOM_STATIC,
    ADDR_TYPE_RANDOM_PRIVATE_RESOLVABLE,
    ADDR_TYPE_RANDOM_PRIVATE_NON_RESOLVABLE in Hin.
  simpl in Hin.
  destruct Hin as [<- | [<- | [<- | [<- | []]]]];
    unfold setAddress, event_of; unfold_gap; simpl; split_ifs; reflexivity.
Qed.

(** C4 (amended): for an implemented advertising type, the parameter checks
    of [startAdvertising] return [BLE_ERROR_PARAM_OUT_OF_RANGE] exactly when
    the interval lies outside the bound of the type or the timeout exceeds
    [GAP_ADV_PARAMS_TIMEOUT_MAX]; with a timeout within that limit the
    interval alone decides.  When the header gives
    [GAP_ADV_PARAMS_INTERVAL_MIN_NONCON] a value above
    [GAP_ADV_PARAMS_INTERVAL_MIN], the interval
    [GAP_ADV_PARAMS_INTERVAL_MIN] is rejected for non-connectable
    advertising. *)
Theorem startAdvertising_range_checks :
  forall (ty : AdvertisingType) (itv tmo : N) (w : World),
    ty <> ADV_CONNECTABLE_DIRECTED ->
    GAP_ADV_PARAMS_INTERVAL_MIN < GAP_ADV_PARAMS_INTERVAL_MIN_NONCON ->
    let params tmo' :=
      {| GapAdvertisingParams.getAdvertisingType := ty;
         GapAdvertisingParams.getInterval := itv;
         GapAdvertisingParams.getTimeout := tmo' |} in
    (rejected_by_checks sd BLE_ERROR_PARAM_OUT_OF_RANGE (params tmo) w
     <-> ~ interval_in_bounds ty itv \/ GAP_ADV_PARAMS_TIMEOUT_MAX < tmo)
    /\ (forall tmo' : N,
          tmo' <= GAP_ADV_PARAMS_TIMEOUT_MAX ->
          (rejected_by_checks sd BLE_ERROR_PARAM_OUT_OF_RANGE (params tmo') w
           <-> ~ interval_in_bounds ty itv))
    /\ rejected_by_checks sd BLE_ERROR_PARAM_OUT_OF_RANGE
         {| GapAdvertisingParams.getAdvertisingType :=
              ADV_NON_CONNECTABLE_UNDIRECTED;
            GapAdvertisingParams.getInterval := GAP_ADV_PARAMS_INTERVAL_MIN;
            GapAdvertisingParams.getTimeout := tmo |} w.
Proof.
  intros ty itv tmo w Hty Hmin. cbv zeta.
  assert (Checks : forall t : N,
             rejected_by_checks sd BLE_ERROR_PARAM_OUT_OF_RANGE
               {| GapAdvertisingParams.getAdvertisingType := ty;
                  GapAdvertisingParams.getInterval := itv;
                  GapAdvertisingParams.getTimeout := t |} w
             <-> ~ interval_in_bounds ty itv
                 \/ GAP_ADV_PARAMS_TIMEOUT_MAX < t).
  { intros t.
    unfold rejected_by_checks, interval_in_bounds, startAdvertising.
    unfold_gap. simpl.
    destruct ty; try congruence; simpl.
    all: destruct (itv <? _) eqn:Hlo;
      [apply N.ltb_lt in Hlo | apply N.ltb_ge in Hlo]; simpl;
      [split; [intros _; left; lia | reflexivity] | ].
    all: destruct (GAP_ADV_PARAMS_INTERVAL_MAX <? itv) eqn:Hhi;
      [apply N.ltb_lt in Hhi | apply N.ltb_ge in Hhi]; simpl;
      [split; [intros _; left; lia | reflexivity] | ].
    all: destruct (GAP_ADV_PARAMS_TIMEOUT_MAX <? t) eqn:Hto;
      [apply N.ltb_lt in Hto | apply N.ltb_ge in Hto]; simpl;
      [split; [intros _; right; lia | reflexivity] | ].
    all: split; [ | intros [Hb | Ht]; [exfalso; apply Hb; lia | lia]].
    all: split_ifs; intros H; absurd_trace. }
  split; [apply Checks | split].
  - intros tmo' Htmo. rewrite Checks. split; [ | auto].
    intros [Hb | Ht]; [exact Hb | lia].
  - unfold rejected_by_checks, startAdvertising. unfold_gap. simpl.
    destruct (GAP_ADV_PARAMS_INTERVAL_MIN
              <? GAP_ADV_PARAMS_INTERVAL_MIN_NONCON) eqn:Hlt;
      [reflexivity | apply N.ltb_ge in Hlt; lia].
Qed.

(** C6 (amended): when the primary payload passes the length checks,
    [setAdvertisingData] forwards both buffers in one
    [sd_ble_gap_adv_data_set] call and then, only if that call succeeded, the
    appearance of [advData] in an [sd_ble_gap_appearance_set] call.  If
    either call fails the result is [BLE_ERROR_PARAM_OUT_OF_RANGE]; the
    object is unchanged in every case.  The two calls are not undone: when
    the second fails the first has been accepted by the SoftDevice. *)
Theorem setAdvertisingData_forwarding :
  forall (advData scanResponse : GapAdvertisingData.t) (w : World),
    1 <= GapAdvertisingData.getPayloadLen advData <= 31 ->
    let r := setAdvertisingData sd advData scanResponse w in
    let data_ev := event_of sd w (adv_data_call advData scanResponse) in
    let w1 := {| gap := gap w; trace := trace w ++ [data_ev] |} in
    let appearance_ev :=
      event_of sd w1
        (sd_ble_gap_appearance_set (GapAdvertisingData.getAppearance advData))
    in
    gap (snd r) = gap w
    /\ ((ev_rc data_ev <> ERROR_NONE
         /\ fst r = BLE_ERROR_PARAM_OUT_OF_RANGE
         /\ trace (snd r) = trace w ++ [data_ev])
        \/ (ev_rc data_ev = ERROR_NONE
            /\ ev_rc appearance_ev <> ERROR_NONE
            /\ fst r = BLE_ERROR_PARAM_OUT_OF_RANGE
            /\ trace (snd r) = trace w ++ [data_ev; appearance_ev])
        \/ (ev_rc data_ev = ERROR_NONE
            /\ ev_rc appearance_ev = ERROR_NONE
            /\ fst r = BLE_ERROR_NONE
            /\ trace (snd r) = trace w ++ [data_ev; appearance_ev])).
Proof.
  intros advData scanResponse w [Hlo Hhi]. cbv zeta.
  unfold setAdvertisingData, event_of, adv_data_call,
    GAP_ADVERTISING_DATA_MAX_PAYLOAD.
  unfold_gap.
  destruct (31 <? GapAdvertisingData.getPayloadLen advData) eqn:Hmax;
    [apply N.ltb_lt in Hmax; lia | ]; simpl.
  destruct (GapAdvertisingData.getPayloadLen advData =? 0) eqn:Hzero;
    [apply N.eqb_eq in Hzero; lia | ]; simpl.
  destruct (ERROR_NONE =? sd (trace w) _) eqn:Hdata;
    [apply N.eqb_eq in Hdata | apply N.eqb_neq in Hdata]; simpl.
  - destruct (ERROR_NONE =? sd (trace w ++ _) _) eqn:Happ;
      [apply N.eqb_eq in Happ | apply N.eqb_neq in Happ]; simpl;
      (split; [reflexivity | right]).
    + right. rewrite <- app_assoc. simpl. auto.
    + left. rewrite <- app_assoc. simpl.
      repeat split; auto.
  - split; [reflexivity | left].
    repeat split; auto.
Qed.

(** Status handling of the appearance accessors, for every SoftDevice:
    [setAppearance] compares the status word with
    [NRF_SUCCESS], whereas [getAppearance] returns [BLE_ERROR_NONE] exactly
    when the status word is non-zero; neither changes the object. *)
Lemma appearance_status_handling :
  forall (appearance : N) (w : World),
    let set := setAppearance sd appearance w in
    let get := getAppearance sd w in
    (fst set = BLE_ERROR_NONE
     <-> sd (trace w) (sd_ble_gap_appearance_set appearance) = NRF_SUCCESS)
    /\ (fst set = BLE_ERROR_PARAM_OUT_OF_RANGE
        <-> sd (trace w) (sd_ble_gap_appearance_set appearance) <> NRF_SUCCESS)
    /\ (fst get = BLE_ERROR_NONE
        <-> sd (trace w) sd_ble_gap_appearance_get <> 0)
    /\ (fst get = BLE_ERROR_PARAM_OUT_OF_RANGE
        <-> sd (trace w) sd_ble_gap_appearance_get = 0)
    /\ gap (snd set) = gap w
    /\ gap (snd get) = gap w.
Proof.
  intros appearance w. cbv zeta.
  unfold setAppearance, getAppearance. unfold_gap. simpl.
  destruct (sd (trace w) (sd_ble_gap_appearance_set appearance) =? NRF_SUCCESS)
    eqn:Hset; [apply N.eqb_eq in Hset | apply N.eqb_neq in Hset];
    destruct (sd (trace w) sd_ble_gap_appearance_get =? 0)
      eqn:Hget; [apply N.eqb_eq in Hget | apply N.eqb_neq in Hget
                | apply N.eqb_eq in Hget | apply N.eqb_neq in Hget];
    simpl; repeat split; intros; auto; try discriminate; try congruence.
Qed.

End Properties.

(** ** Concrete runs with the SDK's constants *)

(** C4, as stated, fails: with the interval at
    [GAP_ADV_PARAMS_INTERVAL_MIN], inside the bound of connectable undirected
    advertising, and a timeout of [GAP_ADV_PARAMS_TIMEOUT_MAX + 1], the
    parameter checks return [BLE_ERROR_PARAM_OUT_OF_RANGE]; so the interval
    bound alone does not characterise that result. *)
Lemma startAdvertising_timeout_rejected_interval_in_bounds :
  (interval_in_bounds (hdr := nrf51_sdk) ADV_CONNECTABLE_UNDIRECTED 0x20
   /\ startAdvertising (hdr := nrf51_sdk) sd_accept
        {| GapAdvertisingParams.getAdvertisingType :=
             ADV_CONNECTABLE_UNDIRECTED;
           GapAdvertisingParams.getInterval := 0x20;
           GapAdvertisingParams.getTimeout := 0x4000 |} initial_world
      = (BLE_ERROR_PARAM_OUT_OF_RANGE, initial_world))
  /\ ~ (forall (hdr : Headers) (sd : SoftDevice)
               (ty : AdvertisingType) (itv tmo : N) (w : World),
          ty <> ADV_CONNECTABLE_DIRECTED ->
          (rejected_by_checks sd BLE_ERROR_PARAM_OUT_OF_RANGE
             {| GapAdvertisingParams.getAdvertisingType := ty;
                GapAdvertisingParams.getInterval := itv;
                GapAdvertisingParams.getTimeout := tmo |} w
           <-> ~ interval_in_bounds ty itv)).
Proof.
  assert (Hin : interval_in_bounds (hdr := nrf51_sdk)
                  ADV_CONNECTABLE_UNDIRECTED 0x20).
  { unfold interval_in_bounds. simpl. lia. }
  split; [split; [exact Hin | reflexivity] | ].
  intros Hclaim.
  apply (Hclaim nrf51_sdk sd_accept ADV_CONNECTABLE_UNDIRECTED 0x20 0x4000
           initial_world); [discriminate | reflexivity | exact Hin].
Qed.

(** The amended C4 at the same input. *)
Lemma startAdvertising_range_checks_witness :
  ADV_CONNECTABLE_UNDIRECTED <> ADV_CONNECTABLE_DIRECTED
  /\ 0x20 < 0xA0
  /\ (rejected_by_checks (hdr := nrf51_sdk) sd_accept
        BLE_ERROR_PARAM_OUT_OF_RANGE
        {| GapAdvertisingParams.getAdvertisingType :=
             ADV_CONNECTABLE_UNDIRECTED;
           GapAdvertisingParams.getInterval := 0x20;
           GapAdvertisingParams.getTimeout := 0x4000 |}
        initial_world
      <-> ~ interval_in_bounds (hdr := nrf51_sdk)
              ADV_CONNECTABLE_UNDIRECTED 0x20
          \/ 0x3FFF < 0x4000).
Proof.
  split; [discriminate | ]. split; [reflexivity | ].
  apply (@startAdvertising_range_checks nrf51_sdk sd_accept
           ADV_CONNECTABLE_UNDIRECTED 0x20 0x4000 initial_world).
  - discriminate.
  - reflexivity.
Defined.

(** C6, as stated, fails: the forwarding is not all-or-nothing.  With a
    SoftDevice that accepts the advertising data (status [ERROR_NONE]) and
    rejects the appearance, [setAdvertisingData] returns
    [BLE_ERROR_PARAM_OUT_OF_RANGE] although the buffers have been accepted;
    so a failed run may leave an accepted call behind. *)
Lemma setAdvertisingData_partial_forwarding :
  (ERROR_NONE (Headers := nrf51_sdk) = 0
   /\ setAdvertisingData (hdr := nrf51_sdk) sd_reject_appearance
        short_advData empty_scanResponse initial_world
      = (BLE_ERROR_PARAM_OUT_OF_RANGE,
         {| gap := gap initial_world;
            trace :=
              [ {| ev_call := sd_ble_gap_adv_data_set [x06] 1 [] 0;
                   ev_rc := 0;
                   ev_state := state (gap initial_world) |};
                {| ev_call := sd_ble_gap_appearance_set 0x0341;
                   ev_rc := 7;
                   ev_state := state (gap initial_world) |} ] |}))
  /\ ~ (forall (hdr : Headers) (sd : SoftDevice)
               (advData scanResponse : GapAdvertisingData.t) (w : World),
          1 <= GapAdvertisingData.getPayloadLen advData <= 31 ->
          forwarded_atomically
            (setAdvertisingData sd advData scanResponse w) w).
Proof.
  split; [split; reflexivity | ].
  intros Hclaim.
  assert (Hlen : 1 <= GapAdvertisingData.getPayloadLen short_advData <= 31)
    by (split; discriminate).
  destruct (Hclaim nrf51_sdk sd_reject_appearance short_advData
              empty_scanResponse initial_world Hlen)
    as [[Hok _] | [_ [_ Hnone]]].
  - discriminate Hok.
  - apply (Hnone {| ev_call := sd_ble_gap_adv_data_set [x06] 1 [] 0;
                    ev_rc := 0;
                    ev_state := state (gap initial_world) |}).
    + left. reflexivity.
    + reflexivity.
Qed.

(** The amended C6 at the same input. *)
Lemma setAdvertisingData_forwarding_witness :
  1 <= GapAdvertisingData.getPayloadLen short_advData <= 31
  /\ gap (snd (setAdvertisingData (hdr := nrf51_sdk) sd_reject_appearance
                 short_advData empty_scanResponse initial_world))
     = gap initial_world.
Proof.
  assert (Hlen : 1 <= GapAdvertisingData.getPayloadLen short_advData <= 31)
    by (split; discriminate).
  split; [exact Hlen | ].
  exact (proj1 (@setAdvertisingData_forwarding nrf51_sdk sd_reject_appearance
                  short_advData empty_scanResponse initial_world Hlen)).
Defined.

(** C7: the scan response is not checked.  With a SoftDevice that accepts
    every call, a 32-byte scan response is forwarded and the result is
    [BLE_ERROR_NONE]; an empty scan response is accepted as well. *)
Theorem setAdvertisingData_scanResponse_unchecked :
  let idle := {| advertising := false; connected := false |} in
  GapAdvertisingData.getPayloadLen long_scanResponse = 32
  /\ setAdvertisingData (hdr := nrf51_sdk) sd_accept
       short_advData long_scanResponse initial_world
     = (BLE_ERROR_NONE,
        {| gap := gap initial_world;
           trace :=
             [ {| ev_call :=
                    sd_ble_gap_adv_data_set [x06] 1 (repeat x00 32) 32;
                  ev_rc := 0;
                  ev_state := idle |};
               {| ev_call := sd_ble_gap_appearance_set 0x0341;
                  ev_rc := 0;
                  ev_state := idle |} ] |})
  /\ fst (setAdvertisingData (hdr := nrf51_sdk) sd_accept
            short_advData empty_scanResponse initial_world)
     = BLE_ERROR_NONE.
Proof. cbv zeta. repeat split; reflexivity. Qed.

(** No run of [setAdvertisingData] distinguishes two scan responses by
    their length: when the SoftDevice answers alike, the results agree. *)
Lemma setAdvertisingData_ignores_scanResponse :
  forall (hdr : Headers) (rc_data rc_appearance : N)
         (advData scan1 scan2 : GapAdvertisingData.t) (w : World),
    let sd : SoftDevice :=
      fun _ c =>
        match c with
        | sd_ble_gap_adv_data_set _ _ _ _ => rc_data
        | _ => rc_appearance
        end in
    fst (setAdvertisingData sd advData scan1 w)
    = fst (setAdvertisingData sd advData scan2 w).
Proof.
  intros hdr rc_data rc_appearance advData scan1 scan2 w. cbv zeta.
  unfold setAdvertisingData. unfold_gap. simpl.
  split_ifs; reflexivity.
Qed.

(** C8: [getAppearance] tests the status word itself instead of comparing
    it with [NRF_SUCCESS].  With the SDK's [NRF_SUCCESS = 0] it returns
    [BLE_ERROR_PARAM_OUT_OF_RANGE] when [sd_ble_gap_appearance_get] succeeds
    and [BLE_ERROR_NONE] when it fails, while [setAppearance] reports both
    outcomes correctly. *)
Theorem getAppearance_inverts_status :
  NRF_SUCCESS (Headers := nrf51_sdk) = 0
  /\ sd_accept (trace initial_world) sd_ble_gap_appearance_get = 0
  /\ fst (getAppearance sd_accept initial_world)
     = BLE_ERROR_PARAM_OUT_OF_RANGE
  /\ sd_reject (trace initial_world) sd_ble_gap_appearance_get = 7
  /\ fst (getAppearance sd_reject initial_world)
     = BLE_ERROR_NONE
  /\ fst (setAppearance (hdr := nrf51_sdk) sd_accept 0x0341 initial_world)
     = BLE_ERROR_NONE
  /\ fst (setAppearance (hdr := nrf51_sdk) sd_reject 0x0341 initial_world)
     = BLE_ERROR_PARAM_OUT_OF_RANGE.
Proof. repeat split; reflexivity. Qed.

(** Whatever value the header gives to [NRF_SUCCESS], some status word makes
    [getAppearance] misreport the outcome of the SoftDevice call. *)
Lemma getAppearance_misreports_some_status :
  forall (hdr : Headers) (w : World),
  exists sd : SoftDevice,
    ~ (fst (getAppearance sd w) = BLE_ERROR_NONE
       <-> sd (trace w) sd_ble_gap_appearance_get = NRF_SUCCESS).
Proof.
  intros hdr w.
  destruct (N.eq_dec NRF_SUCCESS 0) as [Hz | Hnz].
  - exists (fun _ _ => 0).
    unfold getAppearance. unfold_gap. simpl.
    intros [_ H]. specialize (H (eq_sym Hz)). discriminate.
  - destruct (N.eq_dec NRF_SUCCESS 1) as [Hone | Hnone].
    + exists (fun _ _ => 2).
      unfold getAppearance. unfold_gap. simpl.
      intros [H _]. specialize (H eq_refl). lia.
    + exists (fun _ _ => 1).
      unfold getAppearance. unfold_gap. simpl.
      intros [H _]. specialize (H eq_refl). lia.
Qed.


(** The scenarios of the specification, run on the model. *)
Example scenario_empty_payload :
  setAdvertisingData (hdr := nrf51_sdk) sd_accept
    empty_scanResponse empty_scanResponse initial_world
  = (BLE_ERROR_PARAM_OUT_OF_RANGE, initial_world).
Proof. reflexivity. Qed.

Example scenario_payload_of_32_bytes :
  setAdvertisingData (hdr := nrf51_sdk) sd_accept
    long_scanResponse empty_scanResponse initial_world
  = (BLE_ERROR_BUFFER_OVERFLOW, initial_world).
Proof. reflexivity. Qed.

Example scenario_noncon_below_minimum :
  startAdvertising (hdr := nrf51_sdk) sd_accept
    {| GapAdvertisingParams.getAdvertisingType :=
         ADV_NON_CONNECTABLE_UNDIRECTED;
       GapAdvertisingParams.getInterval := 0xA0 - 1;
       GapAdvertisingParams.getTimeout := 0 |} initial_world
  = (BLE_ERROR_PARAM_OUT_OF_RANGE, initial_world).
Proof. reflexivity. Qed.

Example scenario_start_succeeds :
  let r :=
    startAdvertising (hdr := nrf51_sdk) sd_accept
      {| GapAdvertisingParams.getAdvertisingType :=
           ADV_CONNECTABLE_UNDIRECTED;
         GapAdvertisingParams.getInterval := 0x20;
         GapAdvertisingParams.getTimeout := 0 |} initial_world in
  fst r = BLE_ERROR_NONE /\ advertising (state (gap (snd r))) = true.
Proof. split; reflexivity. Qed.

Example scenario_disconnect_fails :
  let r :=
    disconnect (hdr := nrf51_sdk) sd_reject
      REMOTE_USER_TERMINATED_CONNECTION busy_world in
  fst r = BLE_ERROR_PARAM_OUT_OF_RANGE
  /\ state (gap (snd r)) = {| advertising := false; connected := false |}
  /\ issued_disconnect_code (snd r) = Some 0x13.
Proof. repeat split; reflexivity. Qed.

(** * Further properties of the object *)

Section History.

Context {hdr : Headers}.
Variable sd : SoftDevice.
Variable sd_address : list sd_event -> ble_gap_addr_t.

Lemma new_events_app (w w' : World) (added : list sd_event) :
  trace w' = trace w ++ added -> new_events w w' = added.
Proof.
  intros H. unfold new_events. rewrite H.
  generalize (trace w) as l. intros l.
  induction l as [ | e l IH]; simpl; auto.
Qed.

(** The effect of one request on the trace, the two bits and the handle. *)
Lemma perform_effect (r : request) (w : World) :
  exists added : list sd_event,
    trace (snd (perform sd sd_address r w)) = trace w ++ added
    /\ (length added <= softdevice_calls r)%nat
    /\ advertising (state (gap (snd (perform sd sd_address r w))))
       = advertising_after added (advertising (state (gap w)))
    /\ connected (state (gap (snd (perform sd sd_address r w))))
       = connected (state (gap w)) && negb (existsb is_disconnect added)
    /\ m_connectionHandle (gap (snd (perform sd sd_address r w)))
       = handle_after [r] (m_connectionHandle (gap w)).
Proof.
  destruct r; unfold perform; cbv zeta;
    unfold setAdvertisingData, startAdvertising, stopAdvertising, disconnect,
      getPreferredConnectionParams, setPreferredConnectionParams,
      updateConnectionParams, setConnectionHandle, getConnectionHandle,
      setAddress, getDeviceName, setAppearance, getAppearance;
    unfold_gap; simpl; split_ifs;
    (first [ exists []; split; [symmetry; apply app_nil_r | ]
           | eexists; split; [rewrite <- ?app_assoc; reflexivity | ] ]);
    unfold advertising_after, advertising_step, is_disconnect; simpl;
    repeat match goal with
           | H : (_ =? _) = _ |- _ => rewrite H; clear H
           end;
    rewrite ?andb_true_r, ?andb_false_r;
    repeat split; auto.
Qed.

(** The effect of a sequence of requests, by induction on the sequence. *)
Lemma run_effect (rs : list request) :
  forall w : World,
  exists added : list sd_event,
    trace (snd (run sd sd_address rs w)) = trace w ++ added
    /\ (length added <= list_sum (map softdevice_calls rs))%nat
    /\ advertising (state (gap (snd (run sd sd_address rs w))))
       = advertising_after added (advertising (state (gap w)))
    /\ connected (state (gap (snd (run sd sd_address rs w))))
       = connected (state (gap w)) && negb (existsb is_disconnect added)
    /\ m_connectionHandle (gap (snd (run sd sd_address rs w)))
       = handle_after rs (m_connectionHandle (gap w)).
Proof.
  induction rs as [ | r rs IH]; intros w.
  - exists []. simpl. rewrite app_nil_r, andb_true_r. auto.
  - destruct (perform_effect r w) as (a1 & Ht1 & Hl1 & Ha1 & Hc1 & Hh1).
    simpl. destruct (perform sd sd_address r w) as [e w1]. simpl in *.
    destruct (IH w1) as (a2 & Ht2 & Hl2 & Ha2 & Hc2 & Hh2).
    destruct (run sd sd_address rs w1) as [es w2]. simpl in *.
    exists (a1 ++ a2). repeat split.
    + rewrite Ht2, Ht1. apply eq_sym, app_assoc.
    + rewrite length_app. lia.
    + rewrite Ha2, Ha1. unfold advertising_after.
      rewrite fold_left_app. reflexivity.
    + rewrite Hc2, Hc1, existsb_app, negb_orb, andb_assoc. reflexivity.
    + rewrite Hh2, Hh1. reflexivity.
Qed.

(** X1: the [advertising] bit mirrors the history of SoftDevice calls.
    After any sequence of calls of the methods of the class it is what the
    calls issued meanwhile say: on after an accepted
    [sd_ble_gap_adv_start], off after an accepted [sd_ble_gap_adv_stop] or
    any [sd_ble_gap_disconnect], and otherwise as it was. *)
Theorem advertising_mirrors_history :
  forall (rs : list request) (w : World),
    let w' := snd (run sd sd_address rs w) in
    advertising (state (gap w'))
    = advertising_after (new_events w w') (advertising (state (gap w))).
Proof.
  intros rs w. cbv zeta.
  destruct (run_effect rs w) as (added & Ht & _ & Ha & _).
  rewrite (new_events_app _ _ _ Ht). exact Ha.
Qed.

(** X2: no method of the class sets the [connected] bit.  After any
    sequence of calls it is true exactly when it was true before and no
    [sd_ble_gap_disconnect] call has been issued meanwhile. *)
Theorem connected_only_cleared :
  forall (rs : list request) (w : World),
    let w' := snd (run sd sd_address rs w) in
    connected (state (gap w'))
    = connected (state (gap w))
      && negb (existsb is_disconnect (new_events w w')).
Proof.
  intros rs w. cbv zeta.
  destruct (run_effect rs w) as (added & Ht & _ & _ & Hc & _).
  rewrite (new_events_app _ _ _ Ht). exact Hc.
Qed.

(** X3: only [setConnectionHandle] writes [m_connectionHandle].  After any
    sequence of calls of the methods of the class the handle is the argument
    of the last [setConnectionHandle] of the sequence, or the initial handle
    when there is none; [disconnect] in particular does not reset it. *)
Theorem handle_written_only_by_setConnectionHandle :
  forall (rs : list request) (w : World),
    getConnectionHandle (snd (run sd sd_address rs w))
    = handle_after rs (m_connectionHandle (gap w)).
Proof.
  intros rs w.
  destruct (run_effect rs w) as (added & _ & _ & _ & _ & Hh).
  exact Hh.
Qed.

(** X4: a sequence of calls of the methods of the class issues at most two
    SoftDevice calls for each [setAdvertisingData], none for
    [setConnectionHandle] and [getConnectionHandle], and at most one for
    each call of any other method. *)
Theorem softdevice_calls_bound :
  forall (rs : list request) (w : World),
    (length (new_events w (snd (run sd sd_address rs w)))
     <= list_sum (map softdevice_calls rs))%nat.
Proof.
  intros rs w.
  destruct (run_effect rs w) as (added & Ht & Hl & _).
  rewrite (new_events_app _ _ _ Ht). exact Hl.
Qed.

(** X5: [disconnect] targets the connection that [setConnectionHandle]
    announced last, and leaves the handle in place. *)
Theorem disconnect_targets_current_handle :
  forall (con_handle : N) (reason : DisconnectionReason_t) (w : World),
    let w' := snd (disconnect sd reason (setConnectionHandle con_handle w)) in
    getConnectionHandle w' = con_handle
    /\ exists code : N,
        map ev_call (new_events w w')
        = [sd_ble_gap_disconnect con_handle code].
Proof.
  intros con_handle reason w. cbv zeta.
  unfold disconnect, setConnectionHandle, getConnectionHandle. unfold_gap.
  simpl. split_ifs; (split; [reflexivity | ]); eexists;
    (erewrite new_events_app by (simpl; reflexivity)); reflexivity.
Qed.

(** X6: the state-machine methods never consult the two bits.  Started
    while already advertising, stopped while idle or disconnected while not
    connected, they issue the same SoftDevice call and return the same value
    as from any other [state]. *)
Theorem state_bits_never_consulted :
  forall (s : GapState_t) (params : GapAdvertisingParams.t)
         (reason : DisconnectionReason_t) (w : World),
    let same (m : World -> ble_error_t * World) :=
      fst (m (with_state s w)) = fst (m w)
      /\ map observable (new_events (with_state s w) (snd (m (with_state s w))))
         = map observable (new_events w (snd (m w))) in
    same (startAdvertising sd params)
    /\ same (stopAdvertising sd)
    /\ same (disconnect sd reason).
Proof.
  intros s params reason w. cbv zeta.
  assert (Hnil : forall v : World, new_events v v = []).
  { intros v. apply new_events_app. symmetry. apply app_nil_r. }
  repeat split;
    unfold startAdvertising, stopAdvertising, disconnect, with_state;
    unfold_gap; simpl; split_ifs; try reflexivity;
    try (rewrite !Hnil; reflexivity);
    repeat (erewrite new_events_app by (simpl; reflexivity));
    reflexivity.
Qed.

(** X7: [setAddress] reads exactly [ADDR_LEN] bytes of the address: what
    follows the first six bytes has no influence. *)
Theorem setAddress_reads_six_bytes :
  forall (type : addr_type_t) (address extra : list byte) (w : World),
    length address = ADDR_LEN ->
    setAddress sd type (address ++ extra) w = setAddress sd type address w.
Proof.
  intros type address extra w Hlen.
  unfold setAddress.
  rewrite firstn_app.
  replace (ADDR_LEN - length address)%nat with 0%nat by lia.
  rewrite firstn_O, app_nil_r. reflexivity.
Qed.

(** X12: the two local error kinds have one cause each.  Among all the
    methods of the class, [BLE_ERROR_NOT_IMPLEMENTED] is returned only by
    [startAdvertising] for [ADV_CONNECTABLE_DIRECTED], and
    [BLE_ERROR_BUFFER_OVERFLOW] only by [setAdvertisingData] for a primary
    payload of more than 31 bytes. *)
Theorem local_error_kinds :
  forall (r : request) (w : World),
    (fst (perform sd sd_address r w)
     = returned_error BLE_ERROR_NOT_IMPLEMENTED
     <-> exists params : GapAdvertisingParams.t,
           r = call_startAdvertising params
           /\ GapAdvertisingParams.getAdvertisingType params
              = ADV_CONNECTABLE_DIRECTED)
    /\ (fst (perform sd sd_address r w)
        = returned_error BLE_ERROR_BUFFER_OVERFLOW
        <-> exists advData scanResponse : GapAdvertisingData.t,
              r = call_setAdvertisingData advData scanResponse
              /\ 31 < GapAdvertisingData.getPayloadLen advData).
Proof.
  intros r w. split; split.
  - destruct r; unfold perform; cbv zeta;
      unfold setAdvertisingData, startAdvertising, stopAdvertising,
        disconnect, getPreferredConnectionParams,
        setPreferredConnectionParams, updateConnectionParams,
        setAddress, getAddress, setDeviceName, getDeviceName,
        setAppearance, getAppearance;
      unfold_gap; simpl; try discriminate;
      try (split_ifs; discriminate).
    intros H. exists params. split; [reflexivity | ].
    destruct (GapAdvertisingParams.getAdvertisingType params);
      simpl in H; try reflexivity; revert H; split_ifs; discriminate.
  - intros (params & -> & Hty). unfold perform. cbv zeta.
    unfold startAdvertising. unfold_gap. rewrite Hty. reflexivity.
  - destruct r; unfold perform; cbv zeta;
      unfold setAdvertisingData, startAdvertising, stopAdvertising,
        disconnect, getPreferredConnectionParams,
        setPreferredConnectionParams, updateConnectionParams,
        setAddress, getAddress, setDeviceName, getDeviceName,
        setAppearance, getAppearance, GAP_ADVERTISING_DATA_MAX_PAYLOAD;
      unfold_gap; simpl; try discriminate;
      try (split_ifs; discriminate).
    intros H. exists advData, scanResponse. split; [reflexivity | ].
    destruct (31 <? GapAdvertisingData.getPayloadLen advData) eqn:Hmax;
      [apply N.ltb_lt in Hmax; exact Hmax | ].
    simpl in H. revert H. split_ifs; discriminate.
  - intros (advData & scanResponse & -> & Hlen). unfold perform. cbv zeta.
    unfold setAdvertisingData, GAP_ADVERTISING_DATA_MAX_PAYLOAD. unfold_gap.
    apply N.ltb_lt in Hlen. rewrite Hlen. reflexivity.
Qed.

(** X13: except for [disconnect], a method of the class that returns an
    error other than [BLE_ERROR_NONE] has left the object as it found
    it. *)
Theorem failure_leaves_object_unchanged :
  forall (r : request) (w : World) (e : ble_error_t),
    fst (perform sd sd_address r w) = returned_error e ->
    e <> BLE_ERROR_NONE ->
    (forall reason : DisconnectionReason_t, r <> call_disconnect reason) ->
    gap (snd (perform sd sd_address r w)) = gap w.
Proof.
  intros r w e Hret Hfail Hnot.
  destruct r; try (exfalso; eapply Hnot; reflexivity);
    revert Hret; unfold perform; cbv zeta;
    unfold setAdvertisingData, startAdvertising, stopAdvertising,
      getPreferredConnectionParams, setPreferredConnectionParams,
      updateConnectionParams, setConnectionHandle, getConnectionHandle,
      setAddress, getDeviceName, setAppearance, getAppearance;
    unfold_gap; simpl; split_ifs; intros Hret;
    try reflexivity; try discriminate;
    injection Hret as <-; congruence.
Qed.

End History.

(** ** The address and the name *)

Lemma strlen_terminated (name rest : list byte) :
  ~ In x00 name -> strlen (name ++ x00 :: rest) = N.of_nat (length name).
Proof.
  induction name as [ | b name IH]; intros Hnul.
  - reflexivity.
  - assert (Hb : b <> x00) by (intros ->; apply Hnul; left; reflexivity).
    assert (Hrest : ~ In x00 name) by (intros H; apply Hnul; right; exact H).
    change (strlen ((b :: name) ++ x00 :: rest))
      with (strlen (b :: (name ++ x00 :: rest))).
    transitivity (N.succ (strlen (name ++ x00 :: rest))).
    + destruct b; try reflexivity. contradiction Hb. reflexivity.
    + rewrite (IH Hrest). change (length (b :: name)) with (S (length name)).
      rewrite Nat2N.inj_succ. reflexivity.
Qed.

Section IdentityProperties.

Context {hdr : Headers}.

(** X9: what [getAddress] stores through its pointers.  When
    [sd_ble_gap_address_get] fails nothing is stored; when it succeeds a
    [NULL] pointer is skipped, the type is stored through [typeP], and the
    six address bytes replace the first six bytes of the caller's buffer,
    whose length and remaining bytes are kept. *)
Theorem getAddress_outputs :
  forall (rc : N) (dev_addr : ble_gap_addr_t)
         (typeP : option addr_type_t) (addressP : option (list byte)),
    length (addr dev_addr) = ADDR_LEN ->
    let r := getAddress (rc, dev_addr) typeP addressP in
    (rc <> NRF_SUCCESS ->
     r = (BLE_ERROR_PARAM_OUT_OF_RANGE, (typeP, addressP)))
    /\ (rc = NRF_SUCCESS ->
        fst r = BLE_ERROR_NONE
        /\ (typeP = None -> fst (snd r) = None)
        /\ (addressP = None -> snd (snd r) = None)
        /\ (typeP <> None ->
            fst (snd r) = Some (Z.of_N (addr_type dev_addr)))
        /\ (forall buffer : list byte,
              addressP = Some buffer ->
              (ADDR_LEN <= length buffer)%nat ->
              exists buffer' : list byte,
                snd (snd r) = Some buffer'
                /\ length buffer' = length buffer
                /\ firstn ADDR_LEN buffer' = addr dev_addr
                /\ skipn ADDR_LEN buffer' = skipn ADDR_LEN buffer)).
Proof.
  intros rc dev_addr typeP addressP Hlen. cbv zeta. unfold getAddress.
  destruct (rc =? NRF_SUCCESS) eqn:Hrc;
    [apply N.eqb_eq in Hrc | apply N.eqb_neq in Hrc]; cbn [negb fst snd].
  - split; [intros H; contradiction | intros _].
    split; [reflexivity | ].
    split; [intros ->; reflexivity | ].
    split; [intros ->; reflexivity | ].
    split; [destruct typeP; [reflexivity | intros H; contradiction] | ].
    intros buffer -> Hbuf. eexists. split; [reflexivity | ].
    unfold memcpy.
    assert (Hfirst : firstn ADDR_LEN (addr dev_addr) = addr dev_addr)
      by (apply firstn_all2; lia).
    assert (Hzero : (ADDR_LEN - length (addr dev_addr) = 0)%nat) by lia.
    rewrite Hfirst. repeat split.
    + rewrite length_app, length_skipn. lia.
    + rewrite firstn_app, Hfirst, Hzero, firstn_O. apply app_nil_r.
    + rewrite skipn_app, Hzero.
      rewrite (skipn_all2 (addr dev_addr)) by lia. reflexivity.
  - split; [intros _; reflexivity | intros H; contradiction].
Qed.

(** X10: an address set with [setAddress] reads back with [getAddress].
    When the SoftDevice returns the address it was given in the
    [sd_ble_gap_address_set] call, [getAddress] delivers the type that was
    set and the first six bytes of the address that was set. *)
Theorem setAddress_getAddress_round_trip :
  forall (sd : SoftDevice) (type : addr_type_t) (address : list byte)
         (w : World) (type0 : addr_type_t) (buffer : list byte),
    In type defined_addr_types ->
    (ADDR_LEN <= length address)%nat ->
    (ADDR_LEN <= length buffer)%nat ->
    exists dev_addr : ble_gap_addr_t,
      last_address_set (snd (setAddress sd type address w)) = Some dev_addr
      /\ getAddress (NRF_SUCCESS, dev_addr) (Some type0) (Some buffer)
         = (BLE_ERROR_NONE,
            (Some type,
             Some (firstn ADDR_LEN address ++ skipn ADDR_LEN buffer))).
Proof.
  intros sd type address w type0 buffer Hin Hlen Hbuf.
  assert (Hnonneg : (0 <= type)%Z).
  { unfold defined_addr_types, ADDR_TYPE_PUBLIC, ADDR_TYPE_RANDOM_STATIC,
      ADDR_TYPE_RANDOM_PRIVATE_RESOLVABLE,
      ADDR_TYPE_RANDOM_PRIVATE_NON_RESOLVABLE in Hin.
    simpl in Hin. lia. }
  exists {| addr_type := Z.to_N type; addr := firstn ADDR_LEN address |}.
  split.
  - unfold defined_addr_types, ADDR_TYPE_PUBLIC, ADDR_TYPE_RANDOM_STATIC,
      ADDR_TYPE_RANDOM_PRIVATE_RESOLVABLE,
      ADDR_TYPE_RANDOM_PRIVATE_NON_RESOLVABLE in Hin.
    simpl in Hin.
    destruct Hin as [<- | [<- | [<- | [<- | []]]]];
      unfold last_address_set, setAddress; unfold_gap; simpl; split_ifs;
      rewrite rev_unit; reflexivity.
  - unfold getAddress. rewrite N.eqb_refl.
    cbn [negb addr addr_type]. unfold memcpy.
    rewrite firstn_firstn, (Z2N.id type Hnonneg).
    change (Nat.min ADDR_LEN ADDR_LEN) with ADDR_LEN. reflexivity.
Qed.

(** X11: [setDeviceName] hands the SoftDevice the open security mode and, as
    length, the number of bytes before the first NUL of the name; what follows
    the NUL is not counted and an empty name is forwarded with length 0.  The
    result is [BLE_ERROR_NONE] exactly when the SoftDevice accepts. *)
Theorem setDeviceName_length :
  forall (sec_mode_t : Type) (open : sec_mode_t)
         (device_name_set : sec_mode_t -> list byte -> N -> N)
         (name rest : list byte),
    ~ In x00 name ->
    N.of_nat (length name) < 2 ^ 16 ->
    let deviceName := name ++ x00 :: rest in
    let rc := device_name_set open deviceName (N.of_nat (length name)) in
    (setDeviceName sec_mode_t open device_name_set deviceName
     = BLE_ERROR_NONE <-> rc = NRF_SUCCESS)
    /\ (setDeviceName sec_mode_t open device_name_set deviceName
        = BLE_ERROR_PARAM_OUT_OF_RANGE <-> rc <> NRF_SUCCESS).
Proof.
  intros sec_mode_t open device_name_set name rest Hnul Hshort. cbv zeta.
  unfold setDeviceName, to_uint16.
  rewrite (strlen_terminated name rest Hnul), (N.mod_small _ _ Hshort).
  destruct (device_name_set open (name ++ x00 :: rest)
              (N.of_nat (length name)) =? NRF_SUCCESS) eqn:Hrc;
    [apply N.eqb_eq in Hrc | apply N.eqb_neq in Hrc];
    split; split; intros H; try reflexivity; try discriminate; congruence.
Qed.

End IdentityProperties.

(** ** Concrete runs of the further properties *)

(** X7 on an address followed by two more bytes. *)
Lemma setAddress_reads_six_bytes_witness :
  length device_address = ADDR_LEN
  /\ setAddress (hdr := nrf51_sdk) sd_accept ADDR_TYPE_RANDOM_STATIC
       (device_address ++ [x01; x02]) initial_world
     = setAddress (hdr := nrf51_sdk) sd_accept ADDR_TYPE_RANDOM_STATIC
         device_address initial_world.
Proof.
  split; [reflexivity | ].
  apply (@setAddress_reads_six_bytes nrf51_sdk sd_accept
           ADDR_TYPE_RANDOM_STATIC device_address [x01; x02] initial_world).
  reflexivity.
Defined.

(** X8 on a random static address. *)
Lemma setAddress_forwards_defined_type_witness :
  In ADDR_TYPE_RANDOM_STATIC defined_addr_types
  /\ trace (snd (setAddress (hdr := nrf51_sdk) sd_accept
                   ADDR_TYPE_RANDOM_STATIC device_address initial_world))
     = trace initial_world
         ++ [ event_of sd_accept initial_world
                (sd_ble_gap_address_set
                   (BLE_GAP_ADDR_CYCLE_MODE_NONE (Headers := nrf51_sdk))
                   {| addr_type := Z.to_N ADDR_TYPE_RANDOM_STATIC;
                      addr := firstn ADDR_LEN device_address |}) ].
Proof.
  assert (Hin : In ADDR_TYPE_RANDOM_STATIC defined_addr_types)
    by (right; left; reflexivity).
  split; [exact Hin | ].
  exact (@setAddress_forwards_defined_type nrf51_sdk sd_accept
           ADDR_TYPE_RANDOM_STATIC device_address initial_world Hin).
Defined.

(** X9 with a caller's buffer of eight bytes. *)
Lemma getAddress_outputs_witness :
  length (addr {| addr_type := 1; addr := device_address |}) = ADDR_LEN
  /\ fst (getAddress (hdr := nrf51_sdk)
            (0, {| addr_type := 1; addr := device_address |})
            (Some 0%Z) (Some (repeat x00 8)))
     = BLE_ERROR_NONE.
Proof.
  split; [reflexivity | ].
  apply (@getAddress_outputs nrf51_sdk 0
           {| addr_type := 1; addr := device_address |}
           (Some 0%Z) (Some (repeat x00 8)) eq_refl).
  reflexivity.
Defined.

(** X10 on a random static address. *)
Lemma setAddress_getAddress_round_trip_witness :
  In ADDR_TYPE_RANDOM_STATIC defined_addr_types
  /\ (ADDR_LEN <= length device_address)%nat
  /\ (ADDR_LEN <= length (repeat x00 8))%nat
  /\ exists dev_addr : ble_gap_addr_t,
       last_address_set
         (snd (setAddress (hdr := nrf51_sdk) sd_accept
                 ADDR_TYPE_RANDOM_STATIC device_address initial_world))
       = Some dev_addr
       /\ getAddress (hdr := nrf51_sdk)
            (NRF_SUCCESS (Headers := nrf51_sdk), dev_addr)
            (Some 0%Z) (Some (repeat x00 8))
          = (BLE_ERROR_NONE,
             (Some ADDR_TYPE_RANDOM_STATIC,
              Some (firstn ADDR_LEN device_address
                    ++ skipn ADDR_LEN (repeat x00 8)))).
Proof.
  assert (Hin : In ADDR_TYPE_RANDOM_STATIC defined_addr_types)
    by (right; left; reflexivity).
  assert (Hlen : (ADDR_LEN <= length device_address)%nat)
    by (unfold ADDR_LEN, device_address; simpl; lia).
  assert (Hbuf : (ADDR_LEN <= length (repeat x00 8))%nat)
    by (unfold ADDR_LEN; simpl; lia).
  split; [exact Hin | split; [exact Hlen | split; [exact Hbuf | ]]].
  exact (@setAddress_getAddress_round_trip nrf51_sdk sd_accept
           ADDR_TYPE_RANDOM_STATIC device_address initial_world 0%Z
           (repeat x00 8) Hin Hlen Hbuf).
Defined.

(** X11 on the name [nRF5], followed in memory by another byte. *)
Lemma setDeviceName_length_witness :
  ~ In x00 [x6e; x52; x46; x35]
  /\ N.of_nat (length [x6e; x52; x46; x35]) < 2 ^ 16
  /\ setDeviceName (hdr := nrf51_sdk) unit tt accept_four_bytes
       ([x6e; x52; x46; x35] ++ x00 :: [x41])
     = BLE_ERROR_NONE.
Proof.
  assert (Hnul : ~ In x00 [x6e; x52; x46; x35]).
  { intros [H | [H | [H | [H | []]]]]; discriminate. }
  assert (Hshort : N.of_nat (length [x6e; x52; x46; x35]) < 2 ^ 16)
    by reflexivity.
  split; [exact Hnul | split; [exact Hshort | ]].
  apply (@setDeviceName_length nrf51_sdk unit tt accept_four_bytes
           [x6e; x52; x46; x35] [x41] Hnul Hshort).
  reflexivity.
Defined.

(** X13 on a [getDeviceName] that the SoftDevice rejects. *)
Lemma failure_leaves_object_unchanged_witness :
  fst (perform (hdr := nrf51_sdk) sd_reject sd_fixed_address
         call_getDeviceName busy_world)
  = returned_error BLE_ERROR_PARAM_OUT_OF_RANGE
  /\ BLE_ERROR_PARAM_OUT_OF_RANGE <> BLE_ERROR_NONE
  /\ (forall reason : DisconnectionReason_t,
        call_getDeviceName <> call_disconnect reason)
  /\ gap (snd (perform (hdr := nrf51_sdk) sd_reject sd_fixed_address
                 call_getDeviceName busy_world))
     = gap busy_world.
Proof.
  assert (Hret : fst (perform (hdr := nrf51_sdk) sd_reject sd_fixed_address
                        call_getDeviceName busy_world)
                 = returned_error BLE_ERROR_PARAM_OUT_OF_RANGE)
    by reflexivity.
  assert (Hfail : BLE_ERROR_PARAM_OUT_OF_RANGE <> BLE_ERROR_NONE)
    by discriminate.
  assert (Hnot : forall reason : DisconnectionReason_t,
             call_getDeviceName <> call_disconnect reason)
    by (intros reason; discriminate).
  split; [exact Hret | split; [exact Hfail | split; [exact Hnot | ]]].
  exact (@failure_leaves_object_unchanged nrf51_sdk sd_reject
           sd_fixed_address call_getDeviceName busy_world
           BLE_ERROR_PARAM_OUT_OF_RANGE Hret Hfail Hnot).
Defined.

(** C10 with the HCI codes of the SDK. *)
Lemma disconnect_reason_code_witness :
  BLE_HCI_REMOTE_USER_TERMINATED_CONNECTION (Headers := nrf51_sdk) < 2 ^ 8
  /\ BLE_HCI_CONN_INTERVAL_UNACCEPTABLE (Headers := nrf51_sdk) < 2 ^ 8
  /\ issued_disconnect_code
       (snd (disconnect (hdr := nrf51_sdk) sd_accept
               REMOTE_USER_TERMINATED_CONNECTION busy_world))
     = Some 0x13
  /\ issued_disconnect_code
       (snd (disconnect (hdr := nrf51_sdk) sd_accept
               CONN_INTERVAL_UNACCEPTABLE busy_world))
     = Some 0x3B.
Proof.
  assert (Hremote : BLE_HCI_REMOTE_USER_TERMINATED_CONNECTION
                      (Headers := nrf51_sdk) < 2 ^ 8) by reflexivity.
  assert (Hunacceptable : BLE_HCI_CONN_INTERVAL_UNACCEPTABLE
                            (Headers := nrf51_sdk) < 2 ^ 8) by reflexivity.
  split; [exact Hremote | split; [exact Hunacceptable | ]].
  destruct (@disconnect_reason_code nrf51_sdk sd_accept busy_world
              Hremote Hunacceptable) as (Hr & Hu & _).
  split; [exact Hr | exact Hu].
Defined.

(** A session run on the model: advertise, take a connection handle, name
    the device, read the address, update the connection, disconnect although
    the SoftDevice refuses, and stop advertising. *)
Example scenario_session :
  let r :=
    run (hdr := nrf51_sdk)
      (fun _ c =>
         match c with
         | sd_ble_gap_disconnect _ _ => 7
         | _ => 0
         end)
      sd_fixed_address
      [ call_startAdvertising
          {| GapAdvertisingParams.getAdvertisingType :=
               ADV_CONNECTABLE_UNDIRECTED;
             GapAdvertisingParams.getInterval := 0x20;
             GapAdvertisingParams.getTimeout := 0 |};
        call_setConnectionHandle 5;
        call_setDeviceName [x6e; x52; x46; x00];
        call_getAddress (Some 0%Z) None;
        call_updateConnectionParams 5
          {| minInterval := 8; maxInterval := 16; slaveLatency := 0;
             supervisionTimeout := 400 |};
        call_disconnect CONN_INTERVAL_UNACCEPTABLE;
        call_getConnectionHandle;
        call_stopAdvertising ]
      initial_world in
  fst r = [ returned_error BLE_ERROR_NONE; returned_void;
            returned_error BLE_ERROR_NONE; returned_error BLE_ERROR_NONE;
            returned_error BLE_ERROR_NONE;
            returned_error BLE_ERROR_PARAM_OUT_OF_RANGE;
            returned_handle 5; returned_error BLE_ERROR_NONE ]
  /\ state (gap (snd r)) = {| advertising := false; connected := false |}
  /\ getConnectionHandle (snd r) = 5
  /\ map ev_call (trace (snd r))
     = [ sd_ble_gap_adv_start
           {| type := ADV_CONNECTABLE_UNDIRECTED; p_peer_addr := None;
              fp := 0; p_whitelist := None; interval := 0x20; timeout := 0 |};
         sd_ble_gap_device_name_set BLE_GAP_CONN_SEC_MODE_OPEN
           [x6e; x52; x46; x00] 3;
         sd_ble_gap_address_get;
         sd_ble_gap_conn_param_update 5
           {| minInterval := 8; maxInterval := 16; slaveLatency := 0;
              supervisionTimeout := 400 |};
         sd_ble_gap_disconnect 5 0x3B;
         sd_ble_gap_adv_stop ].
Proof. cbv zeta. repeat split; reflexivity. Qed.
